(** * CrsSearch: the statute segmenter of [indexer.py] and the [embed_text]
    SQL function of [plugins/semantic_search.py].

    The loop of [parse_crs_html] (indexer.py, lines 26-74) is embedded as a
    step function over an explicit record of its four local variables.  The
    file and the HTML parser are outside the embedding: the texts of the
    paragraphs (line 40) are the input list, in document order, and the
    title (lines 21-24) is a parameter.  [get_text(" ", strip=True)] hands
    each text over without white space around it ([stripped] below); the
    loop is embedded on every string.

    Character model: a Python [str] is embedded as a Stdlib [string], each
    [ascii] standing for the code point with the same number (0..255).  The
    character classes below are Python's on that range. *)

From Stdlib Require Import Strings.String Strings.Ascii Lists.List.
From Stdlib Require Import NArith.NArith Arith.PeanoNat Bool.Bool micromega.Lia.
Import ListNotations.
Open Scope string_scope.

(** ** Character classes *)

Module Chars.

(** [str.isspace] / regex [\s] on code points below 256: TAB..CR,
    FS..US, SPACE, NEL (0x85) and NBSP (0xA0). *)
Definition is_space (c : ascii) : bool :=
  let n := N_of_ascii c in
  ((9 <=? n) && (n <=? 13) || (28 <=? n) && (n <=? 32)
   || (n =? 133) || (n =? 160))%N.

(** Regex [\d] on code points below 256: the ten ASCII digits. *)
Definition is_digit (c : ascii) : bool :=
  let n := N_of_ascii c in ((48 <=? n) && (n <=? 57))%N.

(** [str.upper] on one code point.  The sharp s becomes "SS"; the micro
    sign and y-diaeresis have their capitals outside the 8-bit range and
    are kept as they are (neither is, nor maps to, an ASCII letter). *)
Definition upper_char (c : ascii) : string :=
  let n := N_of_ascii c in
  if ((97 <=? n) && (n <=? 122))%N then String (ascii_of_N (n - 32)) ""
  else if (n =? 223)%N then "SS"
  else if ((224 <=? n) && (n <=? 254) && negb (n =? 247))%N
       then String (ascii_of_N (n - 32)) ""
  else String c "".

End Chars.
Import Chars.

(** ** The string methods the loop calls *)

Module Str.

Definition nl : string := String "010"%char "".

Fixpoint upper (s : string) : string :=
  match s with
  | "" => ""
  | String c s' => upper_char c ++ upper s'
  end.

(** [text.startswith(p)] *)
Definition startswith (text p : string) : bool := String.prefix p text.

Fixpoint lstrip (s : string) : string :=
  match s with
  | "" => ""
  | String c s' => if is_space c then lstrip s' else s
  end.

Definition is_empty (s : string) : bool :=
  match s with "" => true | _ => false end.

Fixpoint rstrip (s : string) : string :=
  match s with
  | "" => ""
  | String c s' =>
      let r := rstrip s' in
      if is_space c && is_empty r then "" else String c r
  end.

(** [s.strip()] *)
Definition strip (s : string) : string := rstrip (lstrip s).

(** [sep.join(l)] *)
Definition join (sep : string) (l : list string) : string :=
  String.concat sep l.

Fixpoint all_chars (p : ascii -> bool) (s : string) : bool :=
  match s with
  | "" => true
  | String c s' => p c && all_chars p s'
  end.

End Str.
Import Str.

(** ** [section_pattern = re.compile(r"^\s*(\d+-\d+-\d+(?:\.\d+)?)\.?")] *)

Module Regex.

(** Greedy [\d*]: the longest run of digits and what follows it. *)
Fixpoint span_digits (s : string) : string * string :=
  match s with
  | "" => ("", "")
  | String c s' =>
      if is_digit c
      then let '(d, r) := span_digits s' in (String c d, r)
      else ("", s)
  end.

(** [\d+] *)
Definition digits1 (s : string) : option (string * string) :=
  let '(d, r) := span_digits s in
  if is_empty d then None else Some (d, r).

(** A literal character. *)
Definition lit (c : ascii) (s : string) : option string :=
  match s with
  | String c' s' => if Ascii.eqb c c' then Some s' else None
  | "" => None
  end.

(** [(?:\.\d+)?]: the suffix when a period and a digit follow, else
    nothing is consumed. *)
Definition opt_suffix (s : string) : string * string :=
  match lit "." s with
  | Some r =>
      match digits1 r with
      | Some (d, r') => (String "." d, r')
      | None => ("", s)
      end
  | None => ("", s)
  end.

(** [section_pattern.match(text)]: [Some (group 1, text after the whole
    match)] or [None].  Each quantifier is greedy and is followed by a
    character outside its class (or by something that cannot fail), so
    the backtracking matcher never gives back what it took. *)
Definition section_pattern_match (text : string)
  : option (string * string) :=
  let s := lstrip text in
  match digits1 s with
  | None => None
  | Some (d1, s) =>
  match lit "-" s with
  | None => None
  | Some s =>
  match digits1 s with
  | None => None
  | Some (d2, s) =>
  match lit "-" s with
  | None => None
  | Some s =>
  match digits1 s with
  | None => None
  | Some (d3, s) =>
      let '(sfx, s) := opt_suffix s in
      let s := match lit "." s with Some r => r | None => s end in
      Some (d1 ++ "-" ++ d2 ++ "-" ++ d3 ++ sfx, s)
  end end end end end.

(** [match.group(1)] when the match succeeds. *)
Definition section_match (text : string) : option string :=
  option_map fst (section_pattern_match text).

End Regex.
Import Regex.

(** ** The segmenter *)

Module Indexer.

(** The 4-tuple [(main_title, current_article, current_section_id,
    full_content)] appended to [sections_data]. *)
Record SectionRecord := mkSection {
  main_title : string;
  article : string;
  section_id : string;
  content : string
}.

(** The loop's variables (lines 26-31). *)
Record state := mkState {
  sections_data : list SectionRecord;
  current_article : string;
  current_section_id : option string;
  current_buffer : list string
}.

Definition init : state :=
  mkState [] "General Provisions" None [].

(** Python truthiness of [current_section_id]: [None] and [""] are
    false. *)
Definition truthy (o : option string) : bool :=
  match o with
  | None => false
  | Some s => negb (is_empty s)
  end.

(** Line 44. *)
Definition is_article_header (text : string) : bool :=
  startswith (upper text) "ARTICLE" && Nat.ltb (String.length text) 50.

(** Line 64. *)
Definition is_metadata (text : string) : bool :=
  startswith text "Source:" || startswith text "Cross references:"
  || startswith text "Law reviews:".

(** Line 53 / 71. *)
Definition full_content (buffer : list string) : string :=
  strip (join nl buffer).

(** Lines 52-55: the close that happens when a new header is met. *)
Definition close_midstream (title : string) (st : state)
  : list SectionRecord :=
  match current_section_id st with
  | Some id =>
      if truthy (Some id) then
        let c := full_content (current_buffer st) in
        if negb (is_empty c)
        then sections_data st ++ [mkSection title (current_article st) id c]
        else sections_data st
      else sections_data st
  | None => sections_data st
  end.

(** One iteration of the loop body (lines 40-67). *)
Definition step (title : string) (st : state) (text : string) : state :=
  if is_article_header text then
    mkState (sections_data st) text
            (current_section_id st) (current_buffer st)
  else
    match section_match text with
    | Some id =>
        mkState (close_midstream title st) (current_article st)
                (Some id) [text]
    | None =>
        if truthy (current_section_id st) then
          if is_metadata text then st
          else mkState (sections_data st) (current_article st)
                       (current_section_id st)
                       (current_buffer st ++ [text])
        else st
    end.

Definition run (title : string) (st : state) (blocks : list string)
  : state :=
  fold_left (step title) blocks st.

(** Lines 70-74: the last flush and the return. *)
Definition finish (title : string) (st : state) : list SectionRecord :=
  match current_section_id st, current_buffer st with
  | Some id, _ :: _ =>
      if truthy (Some id) then
        sections_data st
          ++ [mkSection title (current_article st) id
                        (full_content (current_buffer st))]
      else sections_data st
  | _, _ => sections_data st
  end.

(** [parse_crs_html] from line 26 on, over the title and the texts of the
    paragraphs. *)
Definition parse_crs_html (title : string) (blocks : list string)
  : list SectionRecord :=
  finish title (run title init blocks).

End Indexer.
Import Indexer.

(** ** [embed_text] of plugins/semantic_search.py

    The sentence-transformer and the float printer of [json.dumps] are
    outside the repository: they are the section's variables. *)

Section Embedding.

(** One component of the vector. *)
Variable float : Type.
(** [model.encode(text).tolist()] *)
Variable encode : string -> list float.
(** What [json.dumps] writes for one float. *)
Variable float_repr : float -> string.

(** [json.dumps] of a list of floats, with its default separators. *)
Definition json_dumps (v : list float) : string :=
  "[" ++ join ", " (map float_repr v) ++ "]".

(** Lines 15-21; [None] is the SQL NULL argument. *)
Definition embed_text (text : option string) : option string :=
  match text with
  | None => None
  | Some s =>
      if is_empty s then None
      else let vector := encode s in Some (json_dumps vector)
  end.

End Embedding.

(** ** Vocabulary of the statements *)

Module Props.

(** A non-empty run of digits, [\d+]. *)
Definition digit_run (d : string) : Prop :=
  d <> "" /\ all_chars is_digit d = true.

(** The words matched by [\d+-\d+-\d+(?:\.\d+)?]. *)
Definition SectionId (id : string) : Prop :=
  exists d1 d2 d3 sfx,
    id = d1 ++ "-" ++ d2 ++ "-" ++ d3 ++ sfx
    /\ digit_run d1 /\ digit_run d2 /\ digit_run d3
    /\ (sfx = "" \/ exists d4, sfx = String "." d4 /\ digit_run d4).

Fixpoint last_char (s : string) : option ascii :=
  match s with
  | "" => None
  | String c s' =>
      match last_char s' with
      | Some c' => Some c'
      | None => Some c
      end
  end.

Definition first_char (s : string) : option ascii :=
  match s with
  | "" => None
  | String c _ => Some c
  end.

(** The block matches the section-header pattern. *)
Definition is_section_header (text : string) : bool :=
  match section_match text with Some _ => true | None => false end.

(** Identifiers of the header blocks, in input order: the order in which
    sections are opened. *)
Fixpoint opened_ids (blocks : list string) : list string :=
  match blocks with
  | [] => []
  | b :: bs =>
      match section_match b with
      | Some id => id :: opened_ids bs
      | None => opened_ids bs
      end
  end.

Definition count_headers (blocks : list string) : nat :=
  length (filter is_section_header blocks).

(** Position of the first element satisfying [p]. *)
Fixpoint find_index {A} (p : A -> bool) (l : list A) : option nat :=
  match l with
  | [] => None
  | x :: l' =>
      if p x then Some 0 else option_map S (find_index p l')
  end.

Definition opens (id : string) (text : string) : bool :=
  match section_match text with
  | Some i => String.eqb i id
  | None => false
  end.

(** First block of the input that opens a section named [id]. *)
Definition first_header_index (id : string) (blocks : list string)
  : option nat :=
  find_index (opens id) blocks.

(** First record of the output named [id]. *)
Definition first_record_index (id : string) (out : list SectionRecord)
  : option nat :=
  find_index (fun r => String.eqb (section_id r) id) out.

(** The value of [current_article] after the blocks, starting from [a]. *)
Definition article_after (a : string) (blocks : list string) : string :=
  fold_left (fun a b => if is_article_header b then b else a) blocks a.

(** The continuation blocks that reach the buffer. *)
Definition kept (text : string) : bool :=
  negb (is_article_header text) && negb (is_metadata text).

(** An open section's buffer starts with the block that opened it. *)
Definition open_ok (st : state) : Prop :=
  match current_section_id st with
  | None => True
  | Some id =>
      exists hdr more,
        current_buffer st = hdr :: more /\ section_match hdr = Some id
  end.

(** Identifiers of the sections closed so far, then the open one. *)
Definition ids_seen (st : state) : list string :=
  map section_id (sections_data st)
    ++ match current_section_id st with Some id => [id] | None => [] end.

(** No block of the list matches the section pattern. *)
Definition no_header (body : list string) : Prop :=
  Forall (fun b => section_match b = None) body.

(** What follows a section's blocks: the end of the input or the next
    header. *)
Definition closes (post : list string) : Prop :=
  post = [] \/
  exists nxt rest, post = nxt :: rest /\ is_section_header nxt = true.

(** The record of the section opened by [hdr] after the blocks [pre] and
    continued by [body]. *)
Definition record_of (title : string) (pre : list string) (hdr id : string)
  (body : list string) : SectionRecord :=
  mkSection title
    (article_after "General Provisions" (pre ++ hdr :: body)) id
    (full_content (hdr :: filter kept body)).

(** The string does not go on with a digit. *)
Definition no_digit_ahead (r : string) : Prop :=
  match r with String c _ => is_digit c = false | "" => True end.

(** The reading under which a section followed by metadata blocks only
    closes to empty content: dropped when the next header closes it, kept
    with empty content when the input ends. *)
Definition metadata_only_closes_empty (title : string)
  (pre : list string) (hdr id : string) (metas post : list string) : Prop :=
  section_match hdr = Some id ->
  Forall (fun b => is_metadata b = true) metas ->
  closes post ->
  full_content (current_buffer (run title init (pre ++ hdr :: metas))) = ""
  /\ (post <> [] ->
      ~ In id (map section_id
                 (parse_crs_html title (pre ++ hdr :: metas ++ post))))
  /\ (post = [] ->
      exists a,
        nth_error (parse_crs_html title (pre ++ hdr :: metas))
          (count_headers pre)
        = Some (mkSection title a id "")).

(** The records stand in the order in which their identifiers first occur
    as headers in the input: of two records, the earlier one has the
    identifier whose first header block comes first. *)
Definition records_in_first_occurrence_order (title : string)
  (blocks : list string) : Prop :=
  forall i j ri rj,
    i < j ->
    nth_error (parse_crs_html title blocks) i = Some ri ->
    nth_error (parse_crs_html title blocks) j = Some rj ->
    exists fi fj,
      first_header_index (section_id ri) blocks = Some fi
      /\ first_header_index (section_id rj) blocks = Some fj
      /\ fi < fj.

(** Not white space. *)
Definition solid (c : ascii) : bool := negb (is_space c).

(** No leading and no trailing white space, as [str.strip] leaves it. *)
Definition stripped (s : string) : Prop := strip s = s.

(** The string goes on with a period and a digit, which [(?:\.\d+)?]
    would take. *)
Definition suffix_ahead (r : string) : bool :=
  match lit "." r with
  | Some (String c _) => is_digit c
  | _ => false
  end.

(** [id] is the longest identifier [text] starts with after its leading
    white space: what follows it is not a digit, and not a period and a
    digit unless [id] has its decimal part already. *)
Definition group1_of (text id : string) : Prop :=
  exists ws d1 d2 d3 sfx rest,
    text = ws ++ id ++ rest
    /\ id = d1 ++ "-" ++ d2 ++ "-" ++ d3 ++ sfx
    /\ all_chars is_space ws = true
    /\ digit_run d1 /\ digit_run d2 /\ digit_run d3
    /\ ((sfx = "" /\ suffix_ahead rest = false)
        \/ exists d4, sfx = String "." d4 /\ digit_run d4)
    /\ no_digit_ahead rest.

(** The loop and the last flush, entered with [current_article = a] and no
    open section. *)
Definition segment_from (a title : string) (blocks : list string)
  : list SectionRecord :=
  finish title (run title (mkState [] a None []) blocks).

(** The two fields of a record that come from the section's own blocks. *)
Definition id_content (r : SectionRecord) : string * string :=
  (section_id r, content r).

End Props.
Import Props.

(** ** The title (indexer.py, lines 21-24) *)

Module Title.

(** [s.replace("\n", " ")] *)
Fixpoint replace_newline (s : string) : string :=
  match s with
  | "" => ""
  | String c s' =>
      String (if Ascii.eqb c "010" then " "%char else c) (replace_newline s')
  end.

(** [h1] is [None] when [soup.find("h1")] finds nothing, else the text
    [h1.get_text(strip=True)] of the element found. *)
Definition main_title_of (h1 : option string) : string :=
  match h1 with
  | Some t => replace_newline t
  | None => "Unknown Title"
  end.

End Title.
Import Title.

(** ** The loop of [run_indexing] (indexer.py, lines 112-127)

    The two tables are created empty (lines 88-101) and hold their rows in
    insertion order.  The model and the row id SQLite gives to a new row of
    [sections] are outside the repository: they are the section's
    variables. *)

Section Indexing.

Variable float : Type.
(** [model.encode(text)], as the list of its components. *)
Variable encode : string -> list float.
(** The id of the row inserted into a table that holds the given ids. *)
Variable new_rowid : list nat -> nat.

Record db := mkDb {
  sections : list (nat * SectionRecord);
  vec_sections : list (nat * list float)
}.

(** Line 116: [f"{article}. {sec_id}. {content}"] *)
Definition text_to_embed (article sec_id content : string) : string :=
  article ++ ". " ++ sec_id ++ ". " ++ content.

(** Lines 120-124: [INSERT INTO sections ... RETURNING id]. *)
Definition insert_section (d : db) (r : SectionRecord) : db * nat :=
  let row_id := new_rowid (map fst (sections d)) in
  (mkDb (sections d ++ [(row_id, r)]) (vec_sections d), row_id).

(** Line 127: [INSERT INTO vec_sections(rowid, embedding)]; a row id that
    is already in the table is refused. *)
Definition insert_vec (d : db) (row_id : nat) (embedding : list float)
  : option db :=
  if existsb (Nat.eqb row_id) (map fst (vec_sections d)) then None
  else Some (mkDb (sections d) (vec_sections d ++ [(row_id, embedding)])).

(** One iteration of the loop (lines 112-127). *)
Definition index_section (d : db) (r : SectionRecord) : option db :=
  let text := text_to_embed (article r) (section_id r) (content r) in
  let embedding := encode text in
  let '(d1, row_id) := insert_section d r in
  insert_vec d1 row_id embedding.

Fixpoint index_sections (d : db) (all_sections : list SectionRecord)
  : option db :=
  match all_sections with
  | [] => Some d
  | r :: rest =>
      match index_section d r with
      | Some d' => index_sections d' rest
      | None => None
      end
  end.

(** [run_indexing] from the parse on, over the title and the texts of the
    paragraphs. *)
Definition run_indexing (title : string) (blocks : list string)
  : option db :=
  index_sections (mkDb [] []) (parse_crs_html title blocks).

(** The vector stored under a row id. *)
Definition stored_vector (d : db) (row_id : nat) : option (list float) :=
  option_map snd (find (fun p => Nat.eqb (fst p) row_id) (vec_sections d)).

End Indexing.

Arguments mkDb {float} _ _.
Arguments sections {float} _.
Arguments vec_sections {float} _.
Arguments stored_vector {float} _ _.

(** The vector computed for a record (lines 116-117). *)
Definition embedding_of {float : Type} (encode : string -> list float)
  (r : SectionRecord) : list float :=
  encode (text_to_embed (article r) (section_id r) (content r)).

(** Both tables hold the same row ids in the same order, each once. *)
Definition paired {float : Type} (d : db float) : Prop :=
  map fst (vec_sections d) = map fst (sections d)
  /\ NoDup (map fst (sections d)).

(** No newline. *)
Definition not_newline (c : ascii) : bool := negb (Ascii.eqb c "010").

(** A row id SQLite may give: one more than the largest in the table. *)
Definition next_rowid (ids : list nat) : nat := S (fold_right Nat.max 0 ids).

(** * Facts about characters and strings *)

Module StrFacts.

Lemma digit_not_space c : is_digit c = true -> is_space c = false.
Proof.
  destruct c as [[] [] [] [] [] [] [] []]; vm_compute; congruence.
Qed.

Lemma is_empty_false s : is_empty s = false <-> s <> "".
Proof. destruct s; simpl; split; congruence. Qed.

Lemma app_assoc (a b c : string) : (a ++ b) ++ c = a ++ b ++ c.
Proof. induction a as [|x a IH]; simpl; [reflexivity | now rewrite IH]. Qed.

Lemma app_empty_r (a : string) : a ++ "" = a.
Proof. induction a as [|x a IH]; simpl; [reflexivity | now rewrite IH]. Qed.

Lemma prefix_nil s : String.prefix "" s = true.
Proof. destruct s; reflexivity. Qed.

Lemma prefix_cons c a b :
  String.prefix (String c a) (String c b) = String.prefix a b.
Proof.
  simpl. destruct (ascii_dec c c) as [_|n]; [reflexivity | now elim n].
Qed.

Lemma prefix_app a b : String.prefix a (a ++ b) = true.
Proof.
  induction a as [|x a IH]; cbn [append].
  - apply prefix_nil.
  - now rewrite prefix_cons.
Qed.

Lemma prefix_empty_r a : String.prefix a "" = true -> a = "".
Proof. destruct a; simpl; congruence. Qed.

Lemma prefix_app_mono c a b :
  String.prefix a b = true -> String.prefix (c ++ a) (c ++ b) = true.
Proof.
  intros H. induction c as [|x c IH]; cbn [append]; [exact H|].
  now rewrite prefix_cons.
Qed.

Lemma lstrip_spaces ws s :
  all_chars is_space ws = true -> lstrip (ws ++ s) = lstrip s.
Proof.
  induction ws as [|c ws IH]; simpl; [reflexivity|].
  intros H. apply andb_true_iff in H as [Hc Hws].
  rewrite Hc. auto.
Qed.

Lemma lstrip_split s :
  exists ws, s = ws ++ lstrip s /\ all_chars is_space ws = true.
Proof.
  induction s as [|c s [ws [E H]]]; simpl.
  - exists "". split; reflexivity.
  - destruct (is_space c) eqn:Hc.
    + exists (String c ws). simpl. rewrite Hc, H. split; [now f_equal | reflexivity].
    + exists "". split; reflexivity.
Qed.

Lemma lstrip_head c s : is_space c = false -> lstrip (String c s) = String c s.
Proof. intros H. simpl. now rewrite H. Qed.

Lemma rstrip_head c s :
  is_space c = false -> rstrip (String c s) = String c (rstrip s).
Proof. intros H. simpl. now rewrite H. Qed.

Lemma rstrip_solid a b :
  all_chars solid a = true ->
  rstrip (a ++ b) = a ++ rstrip b.
Proof.
  induction a as [|c a IH]; cbn [append]; [reflexivity|].
  simpl all_chars. intros H. apply andb_true_iff in H as [Hc Ha].
  apply negb_true_iff in Hc.
  rewrite rstrip_head by exact Hc. now rewrite IH.
Qed.

Lemma prefix_rstrip_app a b :
  String.prefix (rstrip a) (rstrip (a ++ b)) = true.
Proof.
  induction a as [|c a IH]; cbn [append].
  - apply prefix_nil.
  - cbn [rstrip].
    destruct (is_space c); cbn [andb].
    + destruct (rstrip (a ++ b)) eqn:E.
      * apply prefix_empty_r in IH. rewrite IH. reflexivity.
      * cbn [is_empty].
        destruct (is_empty (rstrip a)); [apply prefix_nil|].
        now rewrite prefix_cons.
    + now rewrite prefix_cons.
Qed.

Lemma all_chars_app p a b :
  all_chars p (a ++ b) = all_chars p a && all_chars p b.
Proof.
  induction a as [|c a IH]; simpl; [reflexivity|].
  now rewrite IH, andb_assoc.
Qed.

Lemma all_chars_impl (p q : ascii -> bool) s :
  (forall c, p c = true -> q c = true) ->
  all_chars p s = true -> all_chars q s = true.
Proof.
  intros Hpq. induction s as [|c s IH]; simpl; [reflexivity|].
  intros H. apply andb_true_iff in H as [Hc Hs].
  rewrite (Hpq _ Hc). auto.
Qed.

End StrFacts.
Import StrFacts.

(** * Facts about the section pattern *)

Module RegexFacts.

Lemma span_digits_app d s :
  all_chars is_digit d = true ->
  span_digits (d ++ s) = (d ++ fst (span_digits s), snd (span_digits s)).
Proof.
  induction d as [|c d IH]; cbn [append all_chars]; intros H.
  - now destruct (span_digits s).
  - apply andb_true_iff in H as [Hc Hd].
    cbn [span_digits]. rewrite Hc, (IH Hd). reflexivity.
Qed.

Lemma span_digits_spec s d r :
  span_digits s = (d, r) ->
  s = d ++ r /\ all_chars is_digit d = true /\ no_digit_ahead r.
Proof.
  revert d r. induction s as [|c s IH]; cbn [span_digits]; intros d r H.
  - injection H as <- <-. cbn. auto.
  - destruct (is_digit c) eqn:Hc.
    + destruct (span_digits s) as [d' r'].
      injection H as <- <-.
      destruct (IH _ _ eq_refl) as (E & Hd & Hr).
      cbn [append all_chars]. rewrite Hc, Hd. repeat split; [now f_equal | exact Hr].
    + injection H as <- <-. cbn [append all_chars no_digit_ahead]. auto.
Qed.

Lemma digits1_spec s d r :
  digits1 s = Some (d, r) -> s = d ++ r /\ digit_run d /\ no_digit_ahead r.
Proof.
  unfold digits1. destruct (span_digits s) as [d' r'] eqn:E.
  destruct (is_empty d') eqn:Hd; [discriminate|].
  intros H. injection H as <- <-.
  destruct (span_digits_spec _ _ _ E) as (Es & Hall & Hr).
  split; [exact Es|]. split; [|exact Hr].
  split; [now apply is_empty_false | exact Hall].
Qed.

Lemma digits1_app d s :
  digit_run d -> exists d' r, digits1 (d ++ s) = Some (d ++ d', r)
                         /\ span_digits s = (d', r).
Proof.
  intros [Hne Hall]. unfold digits1. rewrite span_digits_app by exact Hall.
  destruct (span_digits s) as [d' r]. cbn [fst snd].
  exists d', r. split; [|reflexivity].
  destruct d as [|c d]; [now elim Hne | reflexivity].
Qed.

Lemma lit_spec c s r : lit c s = Some r -> s = String c r.
Proof.
  destruct s as [|c' s]; cbn [lit]; [discriminate|].
  destruct (Ascii.eqb c c') eqn:E; [|discriminate].
  apply Ascii.eqb_eq in E. subst. congruence.
Qed.

Lemma lit_head c s : lit c (String c s) = Some s.
Proof. cbn [lit]. now rewrite Ascii.eqb_refl. Qed.

Lemma opt_suffix_spec s sfx r :
  opt_suffix s = (sfx, r) -> no_digit_ahead s ->
  s = sfx ++ r
  /\ (sfx = "" \/ exists d4, sfx = String "." d4 /\ digit_run d4)
  /\ no_digit_ahead r.
Proof.
  unfold opt_suffix. intros H Hs. destruct (lit "." s) as [t|] eqn:El.
  - destruct (digits1 t) as [[d r']|] eqn:Ed.
    + injection H as <- <-.
      apply lit_spec in El. apply digits1_spec in Ed as (Et & Hd & Hr).
      split; [now rewrite El, Et | split; [right; eauto | exact Hr]].
    + injection H as <- <-. auto.
  - injection H as <- <-. auto.
Qed.

(** What a successful match returns: the text is white space, then
    group 1, then at most one period, then the unmatched rest. *)
Lemma section_pattern_match_spec text id rest :
  section_pattern_match text = Some (id, rest) ->
  exists ws dot,
    text = ws ++ id ++ dot ++ rest
    /\ all_chars is_space ws = true
    /\ SectionId id
    /\ (dot = "" \/ dot = ".")
    /\ no_digit_ahead (dot ++ rest).
Proof.
  unfold section_pattern_match.
  destruct (lstrip_split text) as (ws & Etext & Hws).
  destruct (digits1 (lstrip text)) as [[d1 s1]|] eqn:E1; [|discriminate].
  destruct (lit "-" s1) as [s2|] eqn:L1; [|discriminate].
  destruct (digits1 s2) as [[d2 s3]|] eqn:E2; [|discriminate].
  destruct (lit "-" s3) as [s4|] eqn:L2; [|discriminate].
  destruct (digits1 s4) as [[d3 s5]|] eqn:E3; [|discriminate].
  destruct (opt_suffix s5) as [sfx s6] eqn:E4.
  intros H. injection H as <- <-.
  apply digits1_spec in E1 as (X1 & D1 & _), E2 as (X2 & D2 & _),
    E3 as (X3 & D3 & N3).
  apply lit_spec in L1, L2.
  apply opt_suffix_spec in E4 as (X4 & D4 & N4); [|exact N3].
  assert (Hid : SectionId (d1 ++ "-" ++ d2 ++ "-" ++ d3 ++ sfx))
    by (exists d1, d2, d3, sfx; auto).
  assert (Hbody : lstrip text
                  = (d1 ++ "-" ++ d2 ++ "-" ++ d3 ++ sfx) ++ s6).
  { rewrite X1, L1, X2, L2, X3, X4.
    repeat (rewrite ?app_assoc; cbn [append]). reflexivity. }
  destruct (lit "." s6) as [s7|] eqn:L3.
  - apply lit_spec in L3. exists ws, ".".
    split; [|split; [|split; [|split]]]; auto.
    + rewrite Etext at 1. rewrite Hbody, L3. reflexivity.
    + reflexivity.
  - exists ws, "". split; [|split; [|split; [|split]]]; auto.
    rewrite Etext at 1. rewrite Hbody. reflexivity.
Qed.

Lemma section_match_spec text id :
  section_match text = Some id ->
  exists ws rest,
    text = ws ++ id ++ rest
    /\ all_chars is_space ws = true /\ SectionId id
    /\ no_digit_ahead rest.
Proof.
  unfold section_match.
  destruct (section_pattern_match text) as [[i r]|] eqn:E; [|discriminate].
  cbn. intros H. injection H as ->.
  destruct (section_pattern_match_spec _ _ _ E)
    as (ws & dot & Et & Hws & Hid & _ & Hn).
  exists ws, (dot ++ r). auto.
Qed.

End RegexFacts.
Import RegexFacts.

(** * Facts about section identifiers and closed contents *)

Module IdFacts.

Lemma digit_run_solid d : digit_run d -> all_chars solid d = true.
Proof.
  intros [_ H]. revert H. apply all_chars_impl.
  intros c Hc. unfold solid. now rewrite digit_not_space.
Qed.

Lemma digit_run_first d :
  digit_run d -> exists c d', d = String c d' /\ is_digit c = true.
Proof.
  intros [Hne H]. destruct d as [|c d]; [now elim Hne|].
  cbn [all_chars] in H. apply andb_true_iff in H as [Hc _]. eauto.
Qed.

Lemma last_char_app a b c :
  last_char b = Some c -> last_char (a ++ b) = Some c.
Proof.
  intros H. induction a as [|x a IH]; cbn [append last_char]; [exact H|].
  now rewrite IH.
Qed.

Lemma last_char_all p d :
  d <> "" -> all_chars p d = true ->
  exists c, last_char d = Some c /\ p c = true.
Proof.
  induction d as [|x d IH]; [congruence|].
  intros _ H. cbn [all_chars] in H. apply andb_true_iff in H as [Hx Hd].
  cbn [last_char]. destruct d as [|y d].
  - exists x. auto.
  - destruct IH as (c & Hc & Hp); [discriminate | exact Hd |].
    exists c. now rewrite Hc.
Qed.

Section Shape.
Variable id : string.
Hypothesis Hid : SectionId id.

Lemma section_id_solid : all_chars solid id = true.
Proof.
  destruct Hid as (d1 & d2 & d3 & sfx & -> & H1 & H2 & H3 & Hs).
  rewrite !all_chars_app.
  rewrite (digit_run_solid _ H1), (digit_run_solid _ H2),
    (digit_run_solid _ H3).
  destruct Hs as [-> | (d4 & -> & H4)]; [reflexivity|].
  cbn [all_chars]. now rewrite (digit_run_solid _ H4).
Qed.

Lemma section_id_first :
  exists c s, id = String c s /\ is_digit c = true.
Proof.
  destruct Hid as (d1 & d2 & d3 & sfx & -> & H1 & _).
  destruct (digit_run_first _ H1) as (c & d & -> & Hc).
  exists c. eexists. split; [reflexivity | exact Hc].
Qed.

Lemma section_id_last :
  exists c, last_char id = Some c /\ is_digit c = true.
Proof.
  destruct Hid as (d1 & d2 & d3 & sfx & -> & _ & _ & [N3 A3] & Hs).
  destruct Hs as [-> | (d4 & -> & [N4 A4])].
  - destruct (last_char_all _ _ N3 A3) as (c & Hc & Hd).
    exists c. split; [|exact Hd].
    rewrite app_empty_r. now repeat apply last_char_app.
  - destruct (last_char_all _ _ N4 A4) as (c & Hc & Hd).
    exists c. split; [|exact Hd].
    repeat apply last_char_app. cbn [last_char]. now rewrite Hc.
Qed.

Lemma section_id_nonempty : id <> "".
Proof. destruct section_id_first as (c & s & -> & _). discriminate. Qed.

Lemma section_id_lstrip s : lstrip (id ++ s) = id ++ s.
Proof.
  destruct section_id_first as (c & t & -> & Hc).
  cbn [append]. apply lstrip_head. now apply digit_not_space.
Qed.

End Shape.

Lemma lstrip_digit_run d s : digit_run d -> lstrip (d ++ s) = d ++ s.
Proof.
  intros H. destruct (digit_run_first _ H) as (c & d' & -> & Hc).
  cbn [append]. apply lstrip_head. now apply digit_not_space.
Qed.

Lemma digits1_dash d s :
  digit_run d -> digits1 (d ++ String "-" s) = Some (d, String "-" s).
Proof.
  intros H. destruct (digits1_app d (String "-" s) H) as (d' & r & -> & E).
  cbn in E. injection E as <- <-. now rewrite app_empty_r.
Qed.

(** The matcher accepts exactly the texts that start with white space
    and a word of the identifier language. *)
Lemma section_header_iff text :
  is_section_header text = true <->
  exists ws id rest,
    text = ws ++ id ++ rest /\ all_chars is_space ws = true
    /\ SectionId id.
Proof.
  split.
  - unfold is_section_header.
    destruct (section_match text) as [id|] eqn:E; [|discriminate].
    intros _.
    destruct (section_match_spec _ _ E) as (ws & rest & Et & Hws & Hid & _).
    exists ws, id, rest. auto.
  - intros (ws & id & rest & -> & Hws & Hid).
    destruct Hid as (d1 & d2 & d3 & sfx & -> & H1 & H2 & H3 & _).
    unfold is_section_header, section_match, section_pattern_match.
    rewrite lstrip_spaces by exact Hws.
    repeat (rewrite ?app_assoc; cbn [append]).
    rewrite lstrip_digit_run by exact H1.
    rewrite digits1_dash by exact H1. rewrite lit_head.
    rewrite digits1_dash by exact H2. rewrite lit_head.
    destruct (digits1_app d3 (sfx ++ rest) H3) as (d' & r & -> & _).
    destruct (opt_suffix r). reflexivity.
Qed.

Lemma join_cons h more :
  exists x, join nl (h :: more) = h ++ x.
Proof.
  unfold join. destruct more as [|m more]; cbn [concat].
  - exists "". now rewrite app_empty_r.
  - eexists. reflexivity.
Qed.

(** The closed content of a buffer that starts with a header block. *)
Lemma header_content hdr id more :
  section_match hdr = Some id ->
  exists rest x,
    strip hdr = id ++ rstrip rest
    /\ full_content (hdr :: more) = id ++ rstrip (rest ++ x).
Proof.
  intros H.
  destruct (section_match_spec _ _ H) as (ws & rest & -> & Hws & Hid & _).
  destruct (join_cons (ws ++ id ++ rest) more) as [x Hx].
  exists rest, x. unfold full_content, strip. rewrite Hx, !app_assoc.
  split.
  - rewrite lstrip_spaces by exact Hws.
    rewrite section_id_lstrip by exact Hid.
    apply rstrip_solid. now apply section_id_solid.
  - rewrite lstrip_spaces by exact Hws.
    rewrite section_id_lstrip by exact Hid.
    apply rstrip_solid. now apply section_id_solid.
Qed.

Lemma header_content_nonempty hdr id more :
  section_match hdr = Some id -> is_empty (full_content (hdr :: more)) = false.
Proof.
  intros H. destruct (header_content _ _ more H) as (rest & x & _ & ->).
  destruct (section_match_spec _ _ H) as (_ & _ & _ & _ & Hid & _).
  destruct (section_id_first _ Hid) as (c & s & -> & _). reflexivity.
Qed.

Lemma header_content_prefix hdr id more :
  section_match hdr = Some id ->
  String.prefix id (strip hdr) = true
  /\ String.prefix (strip hdr) (full_content (hdr :: more)) = true.
Proof.
  intros H. destruct (header_content _ _ more H) as (rest & x & -> & ->).
  split; [apply prefix_app|].
  apply prefix_app_mono, prefix_rstrip_app.
Qed.

End IdFacts.
Import IdFacts.

(** * The three kinds of block exclude one another *)

Module BlockFacts.

Lemma prefix_head c p t :
  String.prefix (String c p) t = true -> exists t', t = String c t'.
Proof.
  destruct t as [|x t]; cbn [String.prefix]; [discriminate|].
  destruct (ascii_dec c x) as [->|]; [eauto | discriminate].
Qed.

Lemma article_first t :
  is_article_header t = true ->
  exists t', t = String "A" t' \/ t = String "a" t'.
Proof.
  unfold is_article_header, startswith.
  destruct t as [|c t]; [discriminate|].
  intros H. apply andb_true_iff in H as [H _].
  exists t. revert H. cbn [upper].
  destruct c as [[] [] [] [] [] [] [] []];
    first [ left; reflexivity | right; reflexivity
          | cbn; discriminate ].
Qed.

Lemma article_not_section t :
  is_article_header t = true -> section_match t = None.
Proof.
  intros H. destruct (article_first _ H) as [t' [-> | ->]]; reflexivity.
Qed.

Lemma section_not_article t id :
  section_match t = Some id -> is_article_header t = false.
Proof.
  intros H. destruct (is_article_header t) eqn:E; [|reflexivity].
  rewrite (article_not_section _ E) in H. discriminate.
Qed.

Lemma metadata_first t :
  is_metadata t = true ->
  exists t', t = String "S" t' \/ t = String "C" t' \/ t = String "L" t'.
Proof.
  unfold is_metadata, startswith. intros H.
  apply orb_true_iff in H as [H | H]; [apply orb_true_iff in H as [H | H]|];
    apply prefix_head in H as [t' ->]; eauto.
Qed.

Lemma metadata_not_article t :
  is_metadata t = true -> is_article_header t = false.
Proof.
  intros H. destruct (metadata_first _ H) as [t' [-> | [-> | ->]]];
    reflexivity.
Qed.

Lemma metadata_not_section t :
  is_metadata t = true -> section_match t = None.
Proof.
  intros H. destruct (metadata_first _ H) as [t' [-> | [-> | ->]]];
    reflexivity.
Qed.

Lemma metadata_not_kept t : is_metadata t = true -> kept t = false.
Proof. intros H. unfold kept. rewrite H. apply andb_false_r. Qed.

End BlockFacts.
Import BlockFacts.

(** * The loop *)

Module RunFacts.

Lemma run_app title st a b :
  run title st (a ++ b) = run title (run title st a) b.
Proof. apply fold_left_app. Qed.

Lemma step_article title st t :
  is_article_header t = true ->
  step title st t
  = mkState (sections_data st) t (current_section_id st) (current_buffer st).
Proof. intros H. unfold step. now rewrite H. Qed.

Lemma step_header title st t id :
  section_match t = Some id ->
  step title st t
  = mkState (close_midstream title st) (current_article st) (Some id) [t].
Proof.
  intros H. unfold step.
  now rewrite (section_not_article _ _ H), H.
Qed.

Lemma open_id_truthy st id :
  open_ok st -> current_section_id st = Some id -> truthy (Some id) = true.
Proof.
  unfold open_ok. intros Hok E. rewrite E in Hok.
  destruct Hok as (hdr & more & _ & Hm).
  destruct (section_match_spec _ _ Hm) as (_ & _ & _ & _ & Hid & _).
  cbn [truthy]. apply negb_true_iff, is_empty_false.
  now apply section_id_nonempty.
Qed.

Lemma close_midstream_open title st id :
  open_ok st -> current_section_id st = Some id ->
  close_midstream title st
  = (sections_data st
      ++ [mkSection title (current_article st) id
                    (full_content (current_buffer st))])%list.
Proof.
  intros Hok E. unfold close_midstream.
  rewrite E, (open_id_truthy _ _ Hok E).
  unfold open_ok in Hok. rewrite E in Hok.
  destruct Hok as (hdr & more & -> & Hm).
  now rewrite (header_content_nonempty _ _ more Hm).
Qed.

Lemma close_midstream_none title st :
  current_section_id st = None ->
  close_midstream title st = sections_data st.
Proof. intros E. unfold close_midstream. now rewrite E. Qed.

Lemma step_ok title st t : open_ok st -> open_ok (step title st t).
Proof.
  intros Hok. unfold step.
  destruct (is_article_header t); [exact Hok|].
  destruct (section_match t) as [id|] eqn:Hm.
  - unfold open_ok. cbn. eauto.
  - destruct (truthy (current_section_id st)); [|exact Hok].
    destruct (is_metadata t); [exact Hok|].
    unfold open_ok in *. cbn.
    destruct (current_section_id st); [|exact I].
    destruct Hok as (hdr & more & -> & H). cbn. eauto.
Qed.

Lemma run_ok title bs : forall st, open_ok st -> open_ok (run title st bs).
Proof.
  induction bs as [|b bs IH]; intros st H; [exact H|].
  apply IH, step_ok, H.
Qed.

Lemma init_ok : open_ok init.
Proof. exact I. Qed.

Lemma step_current_article title st t :
  current_article (step title st t)
  = if is_article_header t then t else current_article st.
Proof.
  unfold step. destruct (is_article_header t); [reflexivity|].
  destruct (section_match t); [reflexivity|].
  destruct (truthy _); [|reflexivity].
  now destruct (is_metadata t).
Qed.

Lemma run_current_article title bs : forall st,
  current_article (run title st bs) = article_after (current_article st) bs.
Proof.
  induction bs as [|b bs IH]; intros st; [reflexivity|].
  cbn [run fold_left article_after]. fold (run title (step title st b) bs).
  now rewrite IH, step_current_article.
Qed.

Lemma article_after_app a xs ys :
  article_after a (xs ++ ys) = article_after (article_after a xs) ys.
Proof. apply fold_left_app. Qed.

(** While no header is met, only the article and the buffer change. *)
Lemma run_body title id body : forall st,
  current_section_id st = Some id -> truthy (Some id) = true ->
  Forall (fun b => section_match b = None) body ->
  run title st body
  = mkState (sections_data st) (article_after (current_article st) body)
            (Some id) (current_buffer st ++ filter kept body)%list.
Proof.
  induction body as [|b body IH]; intros [d a o buf] E Ht Hb; cbn in E; subst o.
  - cbn. now rewrite app_nil_r.
  - inversion Hb as [|? ? Hnone Hrest]; subst.
    cbn [run fold_left]. fold (run title (step title (mkState d a (Some id) buf) b) body).
    unfold step, kept. cbn [filter article_after fold_left].
    destruct (is_article_header b) eqn:Ha; cbn [negb andb].
    + rewrite IH by auto. reflexivity.
    + rewrite Hnone. cbn [current_section_id]. rewrite Ht.
      destruct (is_metadata b); cbn [negb].
      * rewrite IH by auto. reflexivity.
      * rewrite IH by auto. cbn.
        now rewrite <- List.app_assoc.
Qed.

Lemma step_grows title st t :
  exists l, sections_data (step title st t) = (sections_data st ++ l)%list.
Proof.
  unfold step. destruct (is_article_header t).
  - exists []. cbn. now rewrite app_nil_r.
  - destruct (section_match t).
    + cbn. unfold close_midstream.
      destruct (current_section_id st); [|exists []; now rewrite app_nil_r].
      destruct (truthy _); [|exists []; now rewrite app_nil_r].
      destruct (negb _); [eauto | exists []; now rewrite app_nil_r].
    + exists []. rewrite app_nil_r.
      destruct (truthy _); [|reflexivity].
      now destruct (is_metadata t).
Qed.

Lemma run_grows title bs : forall st,
  exists l, sections_data (run title st bs) = (sections_data st ++ l)%list.
Proof.
  induction bs as [|b bs IH]; intros st.
  - exists []. cbn. now rewrite app_nil_r.
  - destruct (IH (step title st b)) as [l Hl].
    destruct (step_grows title st b) as [l' Hl'].
    exists (l' ++ l)%list. cbn [run fold_left] in *. fold (run title (step title st b) bs).
    now rewrite Hl, Hl', List.app_assoc.
Qed.

Lemma finish_grows title st :
  exists l, finish title st = (sections_data st ++ l)%list.
Proof.
  unfold finish.
  destruct (current_section_id st); [|exists []; now rewrite app_nil_r].
  destruct (current_buffer st); [exists []; now rewrite app_nil_r|].
  destruct (truthy _); [eauto | exists []; now rewrite app_nil_r].
Qed.

Lemma finish_open title st id :
  open_ok st -> current_section_id st = Some id ->
  finish title st
  = (sections_data st
      ++ [mkSection title (current_article st) id
                    (full_content (current_buffer st))])%list.
Proof.
  intros Hok E. unfold finish.
  rewrite E, (open_id_truthy _ _ Hok E).
  unfold open_ok in Hok. rewrite E in Hok.
  now destruct Hok as (hdr & more & -> & _).
Qed.

Lemma finish_none title st :
  current_section_id st = None -> finish title st = sections_data st.
Proof. intros E. unfold finish. now rewrite E. Qed.

End RunFacts.
Import RunFacts.

(** * Which records come out *)

Module ParseFacts.

Lemma opened_ids_app a b : opened_ids (a ++ b) = (opened_ids a ++ opened_ids b)%list.
Proof.
  induction a as [|x a IH]; [reflexivity|].
  cbn [opened_ids List.app]. destruct (section_match x); cbn; now rewrite IH.
Qed.

Lemma length_opened_ids bs : length (opened_ids bs) = count_headers bs.
Proof.
  unfold count_headers, is_section_header.
  induction bs as [|b bs IH]; [reflexivity|].
  cbn [opened_ids filter]. destruct (section_match b); cbn; now rewrite IH.
Qed.

Lemma step_ids title st t :
  open_ok st ->
  ids_seen (step title st t) = (ids_seen st ++ opened_ids [t])%list.
Proof.
  intros Hok. cbn [opened_ids].
  destruct (is_article_header t) eqn:Ha.
  - rewrite (article_not_section _ Ha), app_nil_r.
    now rewrite step_article.
  - destruct (section_match t) as [id|] eqn:Hm.
    + rewrite (step_header _ _ _ _ Hm). unfold ids_seen. cbn.
      destruct (current_section_id st) as [id0|] eqn:E.
      * rewrite (close_midstream_open _ _ _ Hok E), map_app. reflexivity.
      * now rewrite (close_midstream_none _ _ E), app_nil_r.
    + rewrite app_nil_r. unfold step. rewrite Ha, Hm.
      destruct (truthy _); [|reflexivity].
      now destruct (is_metadata t).
Qed.

Lemma run_ids title bs : forall st,
  open_ok st ->
  ids_seen (run title st bs) = (ids_seen st ++ opened_ids bs)%list.
Proof.
  induction bs as [|b bs IH]; intros st Hok.
  - cbn. now rewrite app_nil_r.
  - cbn [run fold_left]. fold (run title (step title st b) bs).
    rewrite IH by now apply step_ok.
    rewrite step_ids by exact Hok.
    rewrite <- List.app_assoc, <- opened_ids_app. reflexivity.
Qed.

Lemma finish_ids title st :
  open_ok st -> map section_id (finish title st) = ids_seen st.
Proof.
  intros Hok. unfold ids_seen.
  destruct (current_section_id st) as [id|] eqn:E.
  - rewrite (finish_open _ _ _ Hok E), map_app. reflexivity.
  - now rewrite (finish_none _ _ E), app_nil_r.
Qed.

Lemma parse_ids title blocks :
  map section_id (parse_crs_html title blocks) = opened_ids blocks.
Proof.
  unfold parse_crs_html.
  rewrite finish_ids by apply run_ok, init_ok.
  now rewrite run_ids by apply init_ok.
Qed.

Lemma parse_length title blocks :
  length (parse_crs_html title blocks) = count_headers blocks.
Proof.
  now rewrite <- length_opened_ids, <- (parse_ids title), length_map.
Qed.

Lemma header_data_length title pre hdr id :
  section_match hdr = Some id ->
  length (sections_data (step title (run title init pre) hdr))
  = count_headers pre.
Proof.
  intros Hm.
  assert (Hok : open_ok (run title init pre)) by apply run_ok, init_ok.
  pose proof (step_ids title _ hdr Hok) as H.
  rewrite run_ids in H by apply init_ok.
  rewrite (step_header _ _ _ _ Hm) in H. unfold ids_seen at 1 in H.
  cbn [sections_data current_section_id opened_ids] in H.
  rewrite Hm in H. cbn [ids_seen init sections_data current_section_id map List.app] in H.
  apply (f_equal (@length _)) in H.
  rewrite !length_app, length_map, length_opened_ids in H. cbn in H.
  rewrite (step_header _ _ _ _ Hm). cbn. lia.
Qed.

(** The record of a section, from its blocks. *)
Lemma section_record title pre hdr id body post :
  section_match hdr = Some id -> no_header body -> closes post ->
  nth_error (parse_crs_html title (pre ++ hdr :: body ++ post))
    (count_headers pre)
  = Some (record_of title pre hdr id body).
Proof.
  intros Hm Hbody Hpost.
  set (st1 := run title init pre).
  set (st2 := step title st1 hdr).
  assert (Hok2 : open_ok st2) by apply step_ok, run_ok, init_ok.
  assert (Hlen : length (sections_data st2) = count_headers pre)
    by now apply (header_data_length title pre hdr id).
  assert (E2 : st2 = mkState (close_midstream title st1)
                       (current_article st1) (Some id) [hdr])
    by now apply step_header.
  assert (Ht : truthy (Some id) = true).
  { apply (open_id_truthy st2 id Hok2). now rewrite E2. }
  assert (Ha : article_after (current_article st2) body
               = article_after "General Provisions" (pre ++ hdr :: body)).
  { rewrite article_after_app. cbn [article_after fold_left].
    rewrite (section_not_article _ _ Hm).
    rewrite E2. cbn [current_article]. unfold st1.
    now rewrite run_current_article. }
  set (st3 := run title st2 body).
  assert (E3 : st3 = mkState (sections_data st2)
                       (article_after "General Provisions"
                          (pre ++ hdr :: body))
                       (Some id) (hdr :: filter kept body)).
  { unfold st3. rewrite (run_body title id body st2); auto.
    - rewrite Ha, E2. reflexivity.
    - now rewrite E2. }
  assert (Hok3 : open_ok st3) by now apply run_ok.
  assert (Hrun : run title init (pre ++ hdr :: body ++ post)
                 = run title st3 post).
  { rewrite run_app. cbn [run fold_left].
    fold (run title (step title (run title init pre) hdr) (body ++ post)).
    now rewrite run_app. }
  unfold parse_crs_html. rewrite Hrun.
  destruct Hpost as [-> | (nxt & rest & -> & Hn)].
  - cbn [run fold_left].
    rewrite (finish_open title st3 id Hok3) by now rewrite E3.
    rewrite E3. cbn [sections_data current_article current_buffer].
    rewrite nth_error_app2 by lia.
    rewrite Hlen, Nat.sub_diag. reflexivity.
  - unfold is_section_header in Hn.
    destruct (section_match nxt) as [id'|] eqn:Hm'; [|discriminate].
    cbn [run fold_left]. fold (run title (step title st3 nxt) rest).
    destruct (run_grows title rest (step title st3 nxt)) as [l1 H1].
    destruct (finish_grows title (run title (step title st3 nxt) rest))
      as [l2 H2].
    rewrite H2, H1, (step_header _ _ _ _ Hm').
    cbn [sections_data].
    rewrite (close_midstream_open title st3 id Hok3) by now rewrite E3.
    rewrite E3. cbn [sections_data current_article current_buffer].
    rewrite <- !List.app_assoc.
    rewrite nth_error_app2 by lia.
    rewrite Hlen, Nat.sub_diag. reflexivity.
Qed.

End ParseFacts.
Import ParseFacts.

(** * Cutting the input at a header *)

Module SplitFacts.

Section Lists.
Context {A : Type} (p : A -> bool).

Lemma filter_nth_split l : forall k h,
  nth_error (filter p l) k = Some h ->
  exists pre post,
    l = (pre ++ h :: post)%list /\ length (filter p pre) = k
    /\ p h = true.
Proof.
  induction l as [|x l IH]; intros k h H.
  - destruct k; discriminate.
  - cbn [filter] in H. destruct (p x) eqn:Hx.
    + destruct k as [|k].
      * injection H as <-. exists [], l. auto.
      * destruct (IH _ _ H) as (pre & post & -> & Hl & Hh).
        exists (x :: pre), post. cbn [filter]. rewrite Hx.
        cbn. auto.
    + destruct (IH _ _ H) as (pre & post & -> & Hl & Hh).
      exists (x :: pre), post. cbn [filter]. rewrite Hx. auto.
Qed.

Lemma split_at_next l :
  exists body post,
    l = (body ++ post)%list
    /\ Forall (fun b => p b = false) body
    /\ (post = [] \/ exists nxt rest, post = nxt :: rest /\ p nxt = true).
Proof.
  induction l as [|x l (body & post & -> & Hb & Hp)].
  - exists [], []. auto.
  - destruct (p x) eqn:Hx.
    + exists [], (x :: body ++ post)%list.
      split; [reflexivity|]. split; [constructor|]. right. eauto.
    + exists (x :: body), post. auto.
Qed.

Lemma find_index_map {B} (f : B -> A) l :
  find_index p (map f l) = find_index (fun x => p (f x)) l.
Proof.
  induction l as [|x l IH]; [reflexivity|].
  cbn [map find_index]. now rewrite IH.
Qed.

End Lists.

Lemma no_header_of_false body :
  Forall (fun b => is_section_header b = false) body -> no_header body.
Proof.
  apply Forall_impl. intros b. unfold is_section_header.
  now destruct (section_match b).
Qed.

Lemma no_header_count body : no_header body -> count_headers body = 0.
Proof.
  unfold count_headers, is_section_header.
  induction 1 as [|b body Hb _ IH]; [reflexivity|].
  cbn [filter]. now rewrite Hb.
Qed.

(** Every record is the record of one section of the input. *)
Lemma record_inv title blocks k r :
  nth_error (parse_crs_html title blocks) k = Some r ->
  exists pre hdr id body post,
    blocks = (pre ++ hdr :: body ++ post)%list
    /\ count_headers pre = k
    /\ nth_error (filter is_section_header blocks) k = Some hdr
    /\ section_match hdr = Some id
    /\ no_header body /\ closes post
    /\ r = record_of title pre hdr id body.
Proof.
  intros H.
  assert (Hk : k < length (filter is_section_header blocks)).
  { fold (count_headers blocks). rewrite <- (parse_length title).
    apply nth_error_Some. congruence. }
  destruct (nth_error (filter is_section_header blocks) k) as [hdr|] eqn:E;
    [|apply nth_error_None in E; lia].
  destruct (filter_nth_split _ _ _ _ E) as (pre & rest & Hb & Hl & Hh).
  destruct (split_at_next is_section_header rest)
    as (body & post & -> & Hbody & Hpost).
  unfold is_section_header in Hh.
  destruct (section_match hdr) as [id|] eqn:Hm; [|discriminate].
  apply no_header_of_false in Hbody.
  exists pre, hdr, id, body, post.
  pose proof (section_record title pre hdr id body post Hm Hbody Hpost) as Hr.
  fold (count_headers pre) in Hl. rewrite Hl, <- Hb, H in Hr.
  injection Hr as ->. rewrite <- Hb. auto 10.
Qed.

(** First positions in the list of opened identifiers and in the input
    are ordered alike. *)
Lemma first_index_order blocks : forall a b ia ib,
  find_index (fun i => String.eqb i a) (opened_ids blocks) = Some ia ->
  find_index (fun i => String.eqb i b) (opened_ids blocks) = Some ib ->
  exists ja jb,
    first_header_index a blocks = Some ja
    /\ first_header_index b blocks = Some jb
    /\ (ia < ib <-> ja < jb).
Proof.
  unfold first_header_index.
  induction blocks as [|x bs IH]; intros a b ia ib Ha Hb; [discriminate|].
  cbn [opened_ids find_index] in *. unfold opens at 1 3.
  destruct (section_match x) as [c|].
  - cbn [find_index] in Ha, Hb.
    destruct (String.eqb c a), (String.eqb c b).
    + injection Ha as <-. injection Hb as <-. exists 0, 0.
      repeat split; auto.
    + injection Ha as <-.
      destruct (find_index _ (opened_ids bs)) as [ib'|] eqn:Eb; [|discriminate].
      injection Hb as <-.
      destruct (IH _ _ _ _ Eb Eb) as (jb & _ & -> & _).
      exists 0, (S jb). cbn. repeat split; lia.
    + injection Hb as <-.
      destruct (find_index _ (opened_ids bs)) as [ia'|] eqn:Ea; [|discriminate].
      injection Ha as <-.
      destruct (IH _ _ _ _ Ea Ea) as (ja & _ & -> & _).
      exists (S ja), 0. cbn. repeat split; lia.
    + destruct (find_index (fun i => String.eqb i a) (opened_ids bs))
        as [ia'|] eqn:Ea; [|discriminate].
      destruct (find_index (fun i => String.eqb i b) (opened_ids bs))
        as [ib'|] eqn:Eb; [|discriminate].
      injection Ha as <-. injection Hb as <-.
      destruct (IH _ _ _ _ Ea Eb) as (ja & jb & -> & -> & Ho).
      exists (S ja), (S jb). cbn. repeat split; lia.
  - destruct (IH _ _ _ _ Ha Hb) as (ja & jb & -> & -> & Ho).
    exists (S ja), (S jb). cbn. repeat split; lia.
Qed.

(** In a list without repetition every element stands at its first
    position. *)
Lemma find_index_nodup (l : list string) : forall i a,
  NoDup l -> nth_error l i = Some a ->
  find_index (fun x => String.eqb x a) l = Some i.
Proof.
  induction l as [|x l IH]; intros i a Hn Hi.
  - destruct i; discriminate.
  - inversion Hn as [|? ? Hx Hl]; subst. cbn [find_index].
    destruct i as [|i].
    + injection Hi as ->. now rewrite String.eqb_refl.
    + cbn [nth_error] in Hi.
      destruct (String.eqb x a) eqn:E.
      * apply String.eqb_eq in E. subst.
        elim Hx. eapply nth_error_In; eassumption.
      * now rewrite (IH _ _ Hl Hi).
Qed.

End SplitFacts.
Import SplitFacts.

(** * The claims *)

(** C1, as stated, fails: with title "T", the section opened by
    "18-1-101. Foo." and followed only by "Source: L. 2020" is closed by
    "18-1-102. Bar." with the content "18-1-101. Foo.", and its record is
    emitted. *)
Lemma C1_metadata_only_counterexample :
  ~ metadata_only_closes_empty "T" [] "18-1-101. Foo." "18-1-101"
      ["Source: L. 2020"] ["18-1-102. Bar."].
Proof.
  intros H. destruct H as (H & _).
  - reflexivity.
  - repeat constructor.
  - right. exists "18-1-102. Bar.", []. split; reflexivity.
  - vm_compute in H. discriminate.
Qed.

(** C1, amended.  A section whose continuation blocks all start with
    "Source:", "Cross references:" or "Law reviews:" closes to the trimmed
    text of its own header block, which is not empty; its record, with that
    content, is emitted when the next header closes it and when the input
    ends. *)
Theorem C1_metadata_only_section title pre hdr id metas post :
  section_match hdr = Some id ->
  Forall (fun b => is_metadata b = true) metas ->
  closes post ->
  full_content (current_buffer (run title init (pre ++ hdr :: metas)))
  = strip hdr
  /\ strip hdr <> ""
  /\ nth_error (parse_crs_html title (pre ++ hdr :: metas ++ post))
       (count_headers pre)
     = Some (mkSection title (article_after "General Provisions" pre) id
               (strip hdr)).
Proof.
  intros Hm Hmeta Hpost.
  assert (Hno : no_header metas).
  { revert Hmeta. apply Forall_impl. intros b. apply metadata_not_section. }
  assert (Hkept : filter kept metas = []).
  { clear Hno. induction Hmeta as [|b metas Hb _ IH]; [reflexivity|].
    cbn [filter]. now rewrite (metadata_not_kept _ Hb). }
  assert (Hart : forall a, article_after a metas = a).
  { intros a. clear Hno Hkept.
    induction Hmeta as [|b metas Hb _ IH]; [reflexivity|].
    cbn [article_after fold_left]. now rewrite (metadata_not_article _ Hb). }
  assert (Hone : full_content [hdr] = strip hdr) by reflexivity.
  split; [|split].
  - rewrite run_app. cbn [run fold_left].
    fold (run title (step title (run title init pre) hdr) metas).
    rewrite (step_header _ _ _ _ Hm).
    assert (Ht : truthy (Some id) = true).
    { apply (open_id_truthy (step title (run title init pre) hdr)).
      - apply step_ok, run_ok, init_ok.
      - now rewrite (step_header _ _ _ _ Hm). }
    rewrite (run_body title id metas) by auto.
    cbn [current_buffer]. rewrite Hkept. exact Hone.
  - rewrite <- Hone. apply is_empty_false.
    now apply (header_content_nonempty hdr id []).
  - rewrite (section_record title pre hdr id metas post Hm Hno Hpost).
    unfold record_of. rewrite Hkept, Hone.
    rewrite article_after_app. cbn [article_after fold_left].
    rewrite (section_not_article _ _ Hm).
    fold (article_after (article_after "General Provisions" pre) metas).
    now rewrite Hart.
Qed.

Lemma C1_metadata_only_section_witness :
  nth_error
    (parse_crs_html "T"
       (["ARTICLE 1"; "18-1-101. Foo."]
          ++ " 18-1-102. Bar. " :: ["Source: L. 2020"; "Law reviews: none"]
          ++ ["18-1-103. Baz."]))
    (count_headers ["ARTICLE 1"; "18-1-101. Foo."])
  = Some (mkSection "T" "ARTICLE 1" "18-1-102" "18-1-102. Bar.").
Proof.
  refine (proj2 (proj2
            (C1_metadata_only_section "T" ["ARTICLE 1"; "18-1-101. Foo."]
               " 18-1-102. Bar. " "18-1-102"
               ["Source: L. 2020"; "Law reviews: none"] ["18-1-103. Baz."]
               _ _ _))).
  - reflexivity.
  - repeat constructor.
  - right. exists "18-1-103. Baz.", []. split; reflexivity.
Defined.

(** C2.  With title "T", the blocks "ARTICLE 1", "18-1-101. Foo.",
    "More body.", "18-1-102. Bar." give exactly two records, in this order:
    ("T", "ARTICLE 1", "18-1-101", "18-1-101. Foo.\nMore body.") and
    ("T", "ARTICLE 1", "18-1-102", "18-1-102. Bar."). *)
Theorem C2_worked_example :
  parse_crs_html "T"
    ["ARTICLE 1"; "18-1-101. Foo."; "More body."; "18-1-102. Bar."]
  = [mkSection "T" "ARTICLE 1" "18-1-101"
       ("18-1-101. Foo." ++ nl ++ "More body.");
     mkSection "T" "ARTICLE 1" "18-1-102" "18-1-102. Bar."].
Proof. vm_compute. reflexivity. Qed.

(** C3.  The segmenter is a total function (no step of the loop can fail);
    on the empty input, and on any input without a block that matches the
    section pattern, it returns the empty list. *)
Theorem C3_no_header_no_record title blocks :
  parse_crs_html title [] = []
  /\ (no_header blocks -> parse_crs_html title blocks = []).
Proof.
  split; [reflexivity|]. intros H.
  apply length_zero_iff_nil. rewrite parse_length.
  now apply no_header_count.
Qed.

Lemma C3_no_header_no_record_witness :
  no_header ["Preamble"; "ARTICLE 1"; "18-1 is no header"; "Source: L. 71"]
  /\ parse_crs_html "T"
       ["Preamble"; "ARTICLE 1"; "18-1 is no header"; "Source: L. 71"] = [].
Proof.
  split.
  - repeat constructor.
  - apply (C3_no_header_no_record "T"
             ["Preamble"; "ARTICLE 1"; "18-1 is no header"; "Source: L. 71"]).
    repeat constructor.
Defined.

(** C4.  The number of records is at most the number of blocks that match
    the section pattern. *)
Theorem C4_records_le_headers title blocks :
  length (parse_crs_html title blocks)
  <= length (filter is_section_header blocks).
Proof. rewrite parse_length. unfold count_headers. lia. Qed.

(** C5, as stated, fails: with title "T" and the blocks "1-1-1. A.",
    "1-1-2. B.", "1-1-1. A bis." the records carry 1-1-1, 1-1-2, 1-1-1.
    The second record stands before the third, but its identifier first
    occurs at block 1, after block 0 where the identifier of the third
    first occurs. *)
Lemma C5_first_occurrence_counterexample :
  ~ records_in_first_occurrence_order "T"
      ["1-1-1. A."; "1-1-2. B."; "1-1-1. A bis."].
Proof.
  intros H.
  destruct (H 1 2
              (mkSection "T" "General Provisions" "1-1-2" "1-1-2. B.")
              (mkSection "T" "General Provisions" "1-1-1" "1-1-1. A bis."))
    as (fi & fj & Hi & Hj & Hlt); [lia | reflexivity | reflexivity |].
  vm_compute in Hi, Hj. injection Hi as <-. injection Hj as <-. lia.
Qed.

(** C5, amended.  The identifiers of the records, in output order, are the
    identifiers of the header blocks in the order the sections were opened;
    two identifiers first appear in the output in the same order as they
    first appear as headers in the input; and when no identifier is opened
    twice, the records stand in the order of first occurrence of their
    identifiers. *)
Theorem C5_output_order title blocks :
  map section_id (parse_crs_html title blocks) = opened_ids blocks
  /\ (forall a b ia ib,
       first_record_index a (parse_crs_html title blocks) = Some ia ->
       first_record_index b (parse_crs_html title blocks) = Some ib ->
       exists ja jb,
         first_header_index a blocks = Some ja
         /\ first_header_index b blocks = Some jb
         /\ (ia < ib <-> ja < jb))
  /\ (NoDup (opened_ids blocks) ->
      records_in_first_occurrence_order title blocks).
Proof.
  split; [apply parse_ids|]. split.
  - intros a b ia ib Ha Hb.
    unfold first_record_index in Ha, Hb.
    rewrite <- (find_index_map (fun i => String.eqb i a) section_id) in Ha.
    rewrite <- (find_index_map (fun i => String.eqb i b) section_id) in Hb.
    rewrite parse_ids in Ha, Hb.
    eapply first_index_order; eassumption.
  - intros Hn i j ri rj Hlt Hi Hj.
    apply (map_nth_error section_id) in Hi, Hj.
    rewrite parse_ids in Hi, Hj.
    apply (find_index_nodup _ _ _ Hn) in Hi, Hj.
    destruct (first_index_order _ _ _ _ _ Hi Hj) as (fi & fj & Ei & Ej & Ho).
    exists fi, fj. split; [exact Ei|]. split; [exact Ej|].
    now apply Ho.
Qed.

Lemma C5_output_order_witness :
  (exists ja jb,
      first_header_index "1-1-2"
        ["1-1-1. A."; "text"; "1-1-2. B."; "ARTICLE 2"; "1-1-1. A bis."]
      = Some ja
      /\ first_header_index "1-1-1"
           ["1-1-1. A."; "text"; "1-1-2. B."; "ARTICLE 2"; "1-1-1. A bis."]
         = Some jb
      /\ (1 < 0 <-> ja < jb))
  /\ NoDup (opened_ids ["1-1-1. A."; "text"; "1-1-2. B."; "1-1-3. C."])
  /\ records_in_first_occurrence_order "T"
       ["1-1-1. A."; "text"; "1-1-2. B."; "1-1-3. C."].
Proof.
  assert (Hn : NoDup (opened_ids
                        ["1-1-1. A."; "text"; "1-1-2. B."; "1-1-3. C."])).
  { cbn. repeat constructor; cbn; intuition discriminate. }
  split; [|split; [exact Hn|]].
  - apply (proj1 (proj2 (C5_output_order "T"
              ["1-1-1. A."; "text"; "1-1-2. B."; "ARTICLE 2";
               "1-1-1. A bis."]))
             "1-1-2" "1-1-1" 1 0); reflexivity.
  - apply (proj2 (proj2 (C5_output_order "T"
              ["1-1-1. A."; "text"; "1-1-2. B."; "1-1-3. C."]))).
    exact Hn.
Defined.

(** C6, at the input where the code departs from it: with title "T" and
    the blocks "18-1-101. Purpose.", "ARTICLE 2", "18-2-101. Definitions.",
    the first section opens before any article header, and its record
    carries "ARTICLE 2", not "General Provisions". *)
Theorem C6_first_section_label :
  parse_crs_html "T"
    ["18-1-101. Purpose."; "ARTICLE 2"; "18-2-101. Definitions."]
  = [mkSection "T" "ARTICLE 2" "18-1-101" "18-1-101. Purpose.";
     mkSection "T" "ARTICLE 2" "18-2-101" "18-2-101. Definitions."].
Proof. vm_compute. reflexivity. Qed.

(** C7.  When a block matches the section pattern, the identifier of the
    section it opens is group 1 of the match: the block is white space, then
    the identifier, then a rest that does not go on with a digit; the
    identifier has the shape digits-digits-digits with an optional .digits,
    holds no white space and ends with a digit, so not with a period; the
    record of that section carries it.  The block "18-1-102.5." gives
    "18-1-102.5". *)
Theorem C7_identifier_is_group_1 title pre hdr id body post :
  section_match hdr = Some id -> no_header body -> closes post ->
  (exists ws rest,
      hdr = ws ++ id ++ rest /\ all_chars is_space ws = true
      /\ no_digit_ahead rest)
  /\ SectionId id
  /\ all_chars solid id = true
  /\ (exists c, last_char id = Some c /\ is_digit c = true)
  /\ (exists r,
        nth_error (parse_crs_html title (pre ++ hdr :: body ++ post))
          (count_headers pre) = Some r
        /\ section_id r = id)
  /\ section_match "18-1-102.5." = Some "18-1-102.5".
Proof.
  intros Hm Hbody Hpost.
  destruct (section_match_spec _ _ Hm) as (ws & rest & E & Hws & Hid & Hn).
  split; [exists ws, rest; auto|].
  split; [exact Hid|].
  split; [now apply section_id_solid|].
  split; [now apply section_id_last|].
  split; [|reflexivity].
  exists (record_of title pre hdr id body).
  split; [now apply section_record | reflexivity].
Qed.

Lemma C7_identifier_is_group_1_witness :
  exists r,
    nth_error
      (parse_crs_html "T"
         (["ARTICLE 1"; "18-1-101. Foo."]
            ++ "  18-1-102.5. Bar." :: ["More."] ++ ["18-1-103. Baz."]))
      (count_headers ["ARTICLE 1"; "18-1-101. Foo."]) = Some r
    /\ section_id r = "18-1-102.5".
Proof.
  refine (proj1 (proj2 (proj2 (proj2 (proj2
            (C7_identifier_is_group_1 "T" ["ARTICLE 1"; "18-1-101. Foo."]
               "  18-1-102.5. Bar." "18-1-102.5" ["More."] ["18-1-103. Baz."]
               _ _ _)))))).
  - reflexivity.
  - repeat constructor.
  - right. exists "18-1-103. Baz.", []. split; reflexivity.
Defined.

(** C8.  [embed_text] returns None for the absent and for the empty
    string, and for every other string the JSON text of the list of floats
    the model gives for it. *)
Theorem C8_embed_text (float : Type) (encode : string -> list float)
  (float_repr : float -> string) :
  embed_text float encode float_repr None = None
  /\ embed_text float encode float_repr (Some "") = None
  /\ forall s, s <> "" ->
       embed_text float encode float_repr (Some s)
       = Some (json_dumps float float_repr (encode s)).
Proof.
  split; [reflexivity|]. split; [reflexivity|].
  intros s Hs. unfold embed_text.
  apply is_empty_false in Hs. now rewrite Hs.
Qed.

Lemma C8_embed_text_witness :
  "theft" <> ""
  /\ embed_text nat (fun _ => [1; 2]) (fun n => match n with 1 => "0.5" | _ => "-0.25" end)
       (Some "theft")
     = Some "[0.5, -0.25]".
Proof.
  split; [discriminate|].
  apply (proj2 (proj2 (C8_embed_text nat (fun _ => [1; 2])
           (fun n => match n with 1 => "0.5" | _ => "-0.25" end))) "theft").
  discriminate.
Defined.

(** C9.  The content of the k-th record begins with the text of the k-th
    header block, the block that opened its section: with its trimmed
    text for any block, which is its full text for a block without white
    space around it, as every text of line 40 is
    ([get_text(" ", strip=True)]).  The header block begins with the
    section identifier, so the content is never empty, and the filter of
    the mid-stream close drops no section: there is one record per header
    block. *)
Theorem C9_content_starts_with_header title blocks k r :
  nth_error (parse_crs_html title blocks) k = Some r ->
  exists hdr,
    nth_error (filter is_section_header blocks) k = Some hdr
    /\ section_match hdr = Some (section_id r)
    /\ startswith (content r) (strip hdr) = true
    /\ startswith (strip hdr) (section_id r) = true
    /\ (stripped hdr -> startswith (content r) hdr = true)
    /\ content r <> ""
    /\ length (parse_crs_html title blocks)
       = length (filter is_section_header blocks).
Proof.
  intros H.
  destruct (record_inv _ _ _ _ H)
    as (pre & hdr & id & body & post & _ & _ & Hk & Hm & _ & _ & ->).
  exists hdr. cbn [record_of content section_id].
  destruct (header_content_prefix hdr id (filter kept body) Hm) as [P1 P2].
  unfold startswith.
  split; [exact Hk|]. split; [exact Hm|]. split; [exact P2|].
  split; [exact P1|]. split; [|split].
  - intros Hs. unfold stripped in Hs. now rewrite Hs in P2.
  - apply is_empty_false. now apply (header_content_nonempty hdr id).
  - apply parse_length.
Qed.

Lemma C9_content_starts_with_header_witness :
  exists hdr,
    nth_error
      (filter is_section_header
         ["ARTICLE 1"; "18-1-101. Foo."; "Source: L. 2020"; "More.";
          "18-1-102. Bar."]) 0 = Some hdr
    /\ stripped hdr
    /\ startswith ("18-1-101. Foo." ++ nl ++ "More.") hdr = true.
Proof.
  destruct (C9_content_starts_with_header "T"
              ["ARTICLE 1"; "18-1-101. Foo."; "Source: L. 2020"; "More.";
               "18-1-102. Bar."] 0
              (mkSection "T" "ARTICLE 1" "18-1-101"
                 ("18-1-101. Foo." ++ nl ++ "More."))
              eq_refl)
    as (hdr & Hk & _ & _ & _ & Hs & _).
  assert (E : hdr = "18-1-101. Foo.")
    by (vm_compute in Hk; now injection Hk).
  exists hdr. split; [exact Hk|].
  assert (Hst : stripped hdr) by (rewrite E; reflexivity).
  split; [exact Hst | exact (Hs Hst)].
Defined.

(** C10.  The record of a section carries the value [current_article] has
    when the section closes, not the one it had when the section opened:
    when an article header stands between the section's header and the
    block that closes it (or the end of the input), the record carries that
    header's text. *)
Theorem C10_article_at_close title pre hdr id body post :
  section_match hdr = Some id -> no_header body -> closes post ->
  exists r,
    nth_error (parse_crs_html title (pre ++ hdr :: body ++ post))
      (count_headers pre) = Some r
    /\ section_id r = id
    /\ article r = current_article (run title init (pre ++ hdr :: body))
    /\ forall b1 art b2,
         body = (b1 ++ art :: b2)%list ->
         is_article_header art = true ->
         Forall (fun b => is_article_header b = false) b2 ->
         article r = art.
Proof.
  intros Hm Hbody Hpost.
  exists (record_of title pre hdr id body).
  split; [now apply section_record|]. split; [reflexivity|].
  split; [now rewrite run_current_article|].
  intros b1 art b2 -> Ha Hb2. cbn [record_of article].
  replace (pre ++ hdr :: b1 ++ art :: b2)%list
    with ((pre ++ hdr :: b1) ++ art :: b2)%list
    by now rewrite <- List.app_assoc.
  rewrite article_after_app. cbn [article_after fold_left]. rewrite Ha.
  clear Hbody. induction Hb2 as [|b b2 Hb _ IH]; [reflexivity|].
  cbn [fold_left]. now rewrite Hb.
Qed.

Lemma C10_article_at_close_witness :
  exists r,
    nth_error
      (parse_crs_html "T"
         (["ARTICLE 1"]
            ++ "18-1-101. Foo." :: ["Body."; "ARTICLE 2"; "Tail."]
            ++ ["18-2-101. Bar."]))
      (count_headers ["ARTICLE 1"]) = Some r
    /\ section_id r = "18-1-101"
    /\ article r = "ARTICLE 2".
Proof.
  destruct (C10_article_at_close "T" ["ARTICLE 1"] "18-1-101. Foo."
              "18-1-101" ["Body."; "ARTICLE 2"; "Tail."] ["18-2-101. Bar."])
    as (r & Hr & Hi & _ & Ha).
  - reflexivity.
  - repeat constructor.
  - right. exists "18-2-101. Bar.", []. split; reflexivity.
  - exists r. split; [exact Hr|]. split; [exact Hi|].
    apply (Ha ["Body."] "ARTICLE 2" ["Tail."]);
      [reflexivity | reflexivity | repeat constructor].
Defined.

(** * Further properties of the segmenter *)

Module FrameFacts.

Lemma close_midstream_frame title d a o b :
  close_midstream title (mkState d a o b)
  = (d ++ close_midstream title (mkState [] a o b))%list.
Proof.
  unfold close_midstream. cbn [current_section_id sections_data
    current_article current_buffer].
  destruct o as [id|]; [|now rewrite app_nil_r].
  destruct (truthy (Some id)); [|now rewrite app_nil_r].
  destruct (negb _); [reflexivity | now rewrite app_nil_r].
Qed.

(** The records already collected are never read by the loop. *)
Lemma step_frame title d a o b t :
  step title (mkState d a o b) t
  = let s := step title (mkState [] a o b) t in
    mkState (d ++ sections_data s) (current_article s)
            (current_section_id s) (current_buffer s).
Proof.
  unfold step. cbn [current_section_id sections_data current_article
    current_buffer].
  destruct (is_article_header t); [cbn; now rewrite app_nil_r|].
  destruct (section_match t) as [id|].
  - cbn. now rewrite close_midstream_frame.
  - destruct (truthy o); [|cbn; now rewrite app_nil_r].
    destruct (is_metadata t); cbn; now rewrite app_nil_r.
Qed.

Lemma run_frame title bs : forall d a o b,
  run title (mkState d a o b) bs
  = let s := run title (mkState [] a o b) bs in
    mkState (d ++ sections_data s) (current_article s)
            (current_section_id s) (current_buffer s).
Proof.
  induction bs as [|t bs IH]; intros d a o b.
  - cbn. now rewrite app_nil_r.
  - cbn [run fold_left].
    fold (run title (step title (mkState d a o b) t) bs).
    fold (run title (step title (mkState [] a o b) t) bs).
    rewrite step_frame.
    destruct (step title (mkState [] a o b) t) as [d1 a1 o1 b1].
    cbn [sections_data current_article current_section_id current_buffer].
    rewrite (IH (d ++ d1)%list), (IH d1). cbn.
    now rewrite List.app_assoc.
Qed.

Lemma finish_frame title d a o b :
  finish title (mkState d a o b)
  = (d ++ finish title (mkState [] a o b))%list.
Proof.
  unfold finish. cbn [current_section_id sections_data current_article
    current_buffer].
  destruct o as [id|]; [|now rewrite app_nil_r].
  destruct b; [now rewrite app_nil_r|].
  destruct (truthy (Some id)); [reflexivity | now rewrite app_nil_r].
Qed.

Lemma finish_run_frame title bs d a o b :
  finish title (run title (mkState d a o b) bs)
  = (d ++ finish title (run title (mkState [] a o b) bs))%list.
Proof.
  rewrite run_frame.
  destruct (run title (mkState [] a o b) bs) as [d1 a1 o1 b1].
  cbn [sections_data current_article current_section_id current_buffer].
  rewrite finish_frame, (finish_frame title d1).
  now rewrite List.app_assoc.
Qed.

(** On the states the loop reaches, the close at a header and the last
    flush emit the same records. *)
Lemma close_is_finish title st :
  open_ok st -> close_midstream title st = finish title st.
Proof.
  intros Hok. destruct (current_section_id st) as [id|] eqn:E.
  - now rewrite (close_midstream_open _ _ _ Hok E), (finish_open _ _ _ Hok E).
  - now rewrite (close_midstream_none _ _ E), (finish_none _ _ E).
Qed.

Lemma start_ok a : open_ok (mkState [] a None []).
Proof. exact I. Qed.

Lemma run_cons title st t bs :
  run title st (t :: bs) = run title (step title st t) bs.
Proof. reflexivity. Qed.

Lemma segment_cut a0 title a h b :
  is_section_header h = true ->
  segment_from a0 title (a ++ h :: b)
  = (segment_from a0 title a
       ++ segment_from (article_after a0 a) title (h :: b))%list.
Proof.
  unfold is_section_header, segment_from. intros Hh.
  destruct (section_match h) as [id|] eqn:Hm; [clear Hh | discriminate].
  rewrite run_app, !run_cons.
  assert (Hok : open_ok (run title (mkState [] a0 None []) a))
    by apply (run_ok title a _ (start_ok a0)).
  pose proof (run_current_article title a (mkState [] a0 None [])) as Ha.
  cbn [current_article] in Ha.
  set (st := run title (mkState [] a0 None []) a) in *.
  rewrite !(step_header _ _ _ _ Hm).
  rewrite (close_is_finish _ _ Hok), Ha.
  cbn [close_midstream current_section_id sections_data].
  apply finish_run_frame.
Qed.

Lemma step_metadata title st t : is_metadata t = true -> step title st t = st.
Proof.
  intros H. unfold step.
  rewrite (metadata_not_article _ H), (metadata_not_section _ H), H.
  now destruct (truthy _).
Qed.

Lemma run_preamble title pre : forall a,
  no_header pre ->
  run title (mkState [] a None []) pre
  = mkState [] (article_after a pre) None [].
Proof.
  induction pre as [|t pre IH]; intros a H; [reflexivity|].
  inversion H as [|? ? Ht Hpre]; subst.
  cbn [run fold_left article_after].
  fold (run title (step title (mkState [] a None []) t) pre).
  fold (article_after (if is_article_header t then t else a) pre).
  unfold step. rewrite Ht. cbn [current_section_id truthy sections_data
    current_buffer].
  destruct (is_article_header t); now rewrite IH.
Qed.

End FrameFacts.
Import FrameFacts.

(** X4.  Blocks that start with "Source:", "Cross references:" or
    "Law reviews:" are invisible to the segmenter wherever they stand:
    taking them all out of the input leaves the output unchanged. *)
Theorem X4_metadata_blocks_invisible title blocks :
  parse_crs_html title blocks
  = parse_crs_html title (filter (fun b => negb (is_metadata b)) blocks).
Proof.
  unfold parse_crs_html. f_equal. generalize init.
  induction blocks as [|t bs IH]; intros st; [reflexivity|].
  cbn [filter run fold_left]. fold (run title (step title st t) bs).
  destruct (is_metadata t) eqn:Hm; cbn [negb].
  - rewrite (step_metadata _ _ _ Hm). apply IH.
  - cbn [run fold_left]. apply IH.
Qed.

(** X5.  The blocks before the first section header are dropped: all they
    leave is the article label, the text of the last article header among
    them. *)
Theorem X5_preamble_only_sets_article title pre rest :
  no_header pre ->
  parse_crs_html title (pre ++ rest)
  = segment_from (article_after "General Provisions" pre) title rest.
Proof.
  intros H. unfold parse_crs_html, segment_from, init.
  now rewrite run_app, run_preamble.
Qed.

Lemma X5_preamble_only_sets_article_witness :
  parse_crs_html "T"
    (["TITLE 18"; "ARTICLE 1"; "Editor's note."] ++ ["18-1-101. Foo."])
  = segment_from "ARTICLE 1" "T" ["18-1-101. Foo."].
Proof.
  apply (X5_preamble_only_sets_article "T"
           ["TITLE 18"; "ARTICLE 1"; "Editor's note."] ["18-1-101. Foo."]).
  repeat constructor.
Defined.

(** X6.  The input can be cut at any section header: the records are those
    of the part before the header, followed by those of the part from the
    header on, segmented with the article label the first part ends with.
    So the close at a header and the flush at the end of the input emit
    the same record. *)
Theorem X6_cut_at_header title a h b :
  is_section_header h = true ->
  parse_crs_html title (a ++ h :: b)
  = (parse_crs_html title a
       ++ segment_from (article_after "General Provisions" a) title
            (h :: b))%list.
Proof. apply (segment_cut "General Provisions"). Qed.

Lemma X6_cut_at_header_witness :
  parse_crs_html "T"
    (["ARTICLE 1"; "18-1-101. Foo."; "More."] ++ "18-1-102. Bar." :: ["End."])
  = (parse_crs_html "T" ["ARTICLE 1"; "18-1-101. Foo."; "More."]
       ++ segment_from "ARTICLE 1" "T" ["18-1-102. Bar."; "End."])%list.
Proof.
  apply (X6_cut_at_header "T" ["ARTICLE 1"; "18-1-101. Foo."; "More."]
           "18-1-102. Bar." ["End."]).
  reflexivity.
Defined.

(** X7.  Reading more input never changes a record that is already
    closed: all records of a prefix of the input, except its last one
    (whose section may still be open), are the first records of the whole
    input. *)
Theorem X7_closed_records_stable title a b :
  exists l,
    parse_crs_html title (a ++ b)
    = (removelast (parse_crs_html title a) ++ l)%list.
Proof.
  unfold parse_crs_html. rewrite run_app.
  set (st := run title init a).
  destruct (run_grows title b st) as [l1 H1].
  destruct (finish_grows title (run title st b)) as [l2 H2].
  rewrite H2, H1.
  assert (Hok : open_ok st) by apply run_ok, init_ok.
  destruct (current_section_id st) as [id|] eqn:E.
  - rewrite (finish_open _ _ _ Hok E), removelast_last.
    exists (l1 ++ l2)%list. now rewrite List.app_assoc.
  - rewrite (finish_none _ _ E).
    destruct (sections_data st) as [|r d] eqn:Ed using rev_ind.
    + exists (l1 ++ l2)%list. reflexivity.
    + rewrite removelast_last.
      exists ([r] ++ l1 ++ l2)%list. now rewrite <- !List.app_assoc.
Qed.

Module RecordFacts.

Lemma rstrip_idem s : rstrip (rstrip s) = rstrip s.
Proof.
  induction s as [|c s IH]; [reflexivity|].
  cbn [rstrip].
  destruct (is_space c && is_empty (rstrip s)) eqn:E; [reflexivity|].
  cbn [rstrip]. now rewrite IH, E.
Qed.

Lemma lstrip_cases s :
  lstrip s = "" \/ exists c t, lstrip s = String c t /\ is_space c = false.
Proof.
  induction s as [|c s IH]; [now left|].
  cbn [lstrip]. destruct (is_space c) eqn:E; [exact IH|].
  right. eauto.
Qed.

Lemma strip_idem s : strip (strip s) = strip s.
Proof.
  unfold strip. destruct (lstrip_cases s) as [-> | (c & t & -> & Hc)];
    [reflexivity|].
  rewrite (rstrip_head _ _ Hc), (lstrip_head _ _ Hc).
  rewrite <- (rstrip_head _ _ Hc). apply rstrip_idem.
Qed.

Lemma rstrip_last s :
  rstrip s = "" \/
  exists c, last_char (rstrip s) = Some c /\ is_space c = false.
Proof.
  induction s as [|x s IH]; [now left|].
  cbn [rstrip].
  destruct (is_space x) eqn:Hx; cbn [andb].
  - destruct (rstrip s) as [|y r] eqn:E; [now left|].
    cbn [is_empty]. right.
    destruct IH as [IH | (c & Hc & Hs)]; [discriminate|].
    exists c. cbn [last_char] in *. now rewrite Hc.
  - right. destruct IH as [-> | (c & Hc & Hs)].
    + exists x. auto.
    + exists c. cbn [last_char]. now rewrite Hc.
Qed.

Lemma article_after_cases l : forall a,
  article_after a l = a
  \/ (In (article_after a l) l
      /\ is_article_header (article_after a l) = true).
Proof.
  induction l as [|t l IH]; intros a; [now left|].
  cbn [article_after fold_left].
  fold (article_after (if is_article_header t then t else a) l).
  destruct (is_article_header t) eqn:Ht.
  - destruct (IH t) as [-> | [Hin Hh]]; right.
    + split; [now left | exact Ht].
    + split; [now right | exact Hh].
  - destruct (IH a) as [-> | [Hin Hh]]; [now left|].
    right. split; [now right | exact Hh].
Qed.

Lemma article_header_short t :
  is_article_header t = true -> String.length t < 50.
Proof.
  unfold is_article_header. intros H.
  apply andb_true_iff in H as [_ H]. now apply Nat.ltb_lt.
Qed.

End RecordFacts.
Import RecordFacts.

(** X1.  A block matches the section pattern exactly when it is white
    space (possibly none) followed by a word of the form
    digits-digits-digits, optionally with .digits, followed by anything. *)
Theorem X1_section_pattern_language text :
  is_section_header text = true <->
  exists ws id rest,
    text = ws ++ id ++ rest /\ all_chars is_space ws = true /\ SectionId id.
Proof. apply section_header_iff. Qed.

(** X3.  The three tests of the loop exclude one another: no block is at
    once an article header and a section header, an article header and a
    metadata line, or a metadata line and a section header.  The order of
    the tests therefore decides nothing. *)
Theorem X3_block_kinds_exclusive text :
  is_article_header text && is_section_header text = false
  /\ is_article_header text && is_metadata text = false
  /\ is_metadata text && is_section_header text = false.
Proof.
  unfold is_section_header. repeat split.
  - destruct (is_article_header text) eqn:E; [|reflexivity].
    now rewrite (article_not_section _ E).
  - destruct (is_metadata text) eqn:E; [|apply andb_false_r].
    now rewrite (metadata_not_article _ E).
  - destruct (is_metadata text) eqn:E; [|reflexivity].
    now rewrite (metadata_not_section _ E).
Qed.

(** X8.  The k-th record is made from the k-th header block and the
    blocks up to the next header (or the end of the input): its identifier
    is group 1 of the header block, its article is the value of
    [current_article] after the section's last block, and its content is
    the trimmed newline-join of the header block and of those following
    blocks that are neither article headers nor metadata lines. *)
Theorem X8_record_of_kth_section title blocks k r :
  nth_error (parse_crs_html title blocks) k = Some r ->
  exists pre hdr body post,
    blocks = (pre ++ hdr :: body ++ post)%list
    /\ length (filter is_section_header pre) = k
    /\ section_match hdr = Some (section_id r)
    /\ no_header body /\ closes post
    /\ main_title r = title
    /\ article r = article_after "General Provisions" (pre ++ hdr :: body)
    /\ content r = strip (join nl (hdr :: filter kept body)).
Proof.
  intros H.
  destruct (record_inv _ _ _ _ H)
    as (pre & hdr & id & body & post & Hb & Hk & _ & Hm & Hbody & Hpost & ->).
  exists pre, hdr, body, post. cbn [record_of section_id main_title article
    content]. auto 10.
Qed.

Lemma X8_record_of_kth_section_witness :
  exists pre hdr body post,
    ["ARTICLE 1"; "18-1-101. Foo."; "Source: x"; "More."; "18-1-102. Bar."]
    = (pre ++ hdr :: body ++ post)%list
    /\ length (filter is_section_header pre) = 0
    /\ "18-1-101. Foo." ++ nl ++ "More."
       = strip (join nl (hdr :: filter kept body)).
Proof.
  destruct (X8_record_of_kth_section "T"
              ["ARTICLE 1"; "18-1-101. Foo."; "Source: x"; "More.";
               "18-1-102. Bar."] 0
              (mkSection "T" "ARTICLE 1" "18-1-101"
                 ("18-1-101. Foo." ++ nl ++ "More.")) eq_refl)
    as (pre & hdr & body & post & Hb & Hk & _ & _ & _ & _ & _ & Hc).
  exists pre, hdr, body, post. auto.
Defined.

(** X9.  No field of a record is invented: the title is the one given,
    the identifier has the shape digits-digits-digits with an optional
    .digits, and the article is either "General Provisions" or the
    verbatim text of an article-header block of the input, shorter than 50
    characters. *)
Theorem X9_record_fields_provenance title blocks r :
  In r (parse_crs_html title blocks) ->
  main_title r = title
  /\ SectionId (section_id r)
  /\ (article r = "General Provisions"
      \/ (In (article r) blocks
          /\ is_article_header (article r) = true
          /\ String.length (article r) < 50)).
Proof.
  intros Hin. apply In_nth_error in Hin as [k Hk].
  destruct (record_inv _ _ _ _ Hk)
    as (pre & hdr & id & body & post & Hb & _ & _ & Hm & _ & _ & ->).
  cbn [record_of main_title section_id article].
  split; [reflexivity|]. split.
  - now destruct (section_match_spec _ _ Hm) as (_ & _ & _ & _ & Hid & _).
  - destruct (article_after_cases (pre ++ hdr :: body) "General Provisions")
      as [-> | [Hi Hh]]; [now left|].
    right. split; [|split; [exact Hh | now apply article_header_short]].
    rewrite Hb.
    replace (pre ++ hdr :: body ++ post)%list
      with ((pre ++ hdr :: body) ++ post)%list
      by now rewrite <- List.app_assoc.
    apply in_or_app. now left.
Qed.

Lemma X9_record_fields_provenance_witness :
  main_title (mkSection "T" "ARTICLE 1" "18-1-101" "18-1-101. Foo.") = "T"
  /\ SectionId "18-1-101".
Proof.
  destruct (X9_record_fields_provenance "T" ["ARTICLE 1"; "18-1-101. Foo."]
              (mkSection "T" "ARTICLE 1" "18-1-101" "18-1-101. Foo."))
    as (Ht & Hid & _).
  - left. reflexivity.
  - split; [exact Ht | exact Hid].
Defined.

(** X10.  The content of a record carries no white space at either end:
    trimming it again changes nothing, it starts with a digit (the first
    of its identifier) and ends with a character that is not white
    space. *)
Theorem X10_content_is_stripped title blocks r :
  In r (parse_crs_html title blocks) ->
  strip (content r) = content r
  /\ (exists c, first_char (content r) = Some c /\ is_digit c = true)
  /\ (exists c, last_char (content r) = Some c /\ is_space c = false).
Proof.
  intros Hin. apply In_nth_error in Hin as [k Hk].
  destruct (record_inv _ _ _ _ Hk)
    as (pre & hdr & id & body & post & _ & _ & _ & Hm & _ & _ & ->).
  cbn [record_of content].
  split; [apply strip_idem|].
  pose proof (header_content_nonempty hdr id (filter kept body) Hm) as Hne.
  split.
  - destruct (header_content hdr id (filter kept body) Hm)
      as (rest & x & _ & ->).
    destruct (section_match_spec _ _ Hm) as (_ & _ & _ & _ & Hid & _).
    destruct (section_id_first _ Hid) as (c & s & -> & Hc).
    exists c. auto.
  - unfold full_content, strip in *.
    destruct (rstrip_last (lstrip (join nl (hdr :: filter kept body))))
      as [E | H]; [|exact H].
    rewrite E in Hne. discriminate.
Qed.

Lemma X10_content_is_stripped_witness :
  strip "18-1-101. Foo." = "18-1-101. Foo.".
Proof.
  apply (X10_content_is_stripped "T" ["ARTICLE 1"; "  18-1-101. Foo. "; " "]
           (mkSection "T" "ARTICLE 1" "18-1-101" "18-1-101. Foo.")).
  left. reflexivity.
Defined.

Module ExactFacts.

Lemma span_digits_stop r : no_digit_ahead r -> span_digits r = ("", r).
Proof.
  destruct r as [|c r]; [reflexivity|].
  cbn [no_digit_ahead span_digits]. now intros ->.
Qed.

Lemma digits1_exact d r :
  digit_run d -> no_digit_ahead r -> digits1 (d ++ r) = Some (d, r).
Proof.
  intros Hd Hr. destruct (digits1_app d r Hd) as (d' & r' & -> & E).
  rewrite (span_digits_stop _ Hr) in E. injection E as <- <-.
  now rewrite app_empty_r.
Qed.

Lemma digits1_none r : no_digit_ahead r -> digits1 r = None.
Proof.
  intros H. unfold digits1. now rewrite (span_digits_stop _ H).
Qed.

Lemma digits1_none_inv r : digits1 r = None -> no_digit_ahead r.
Proof.
  destruct r as [|c r]; [exact (fun _ => I)|].
  unfold digits1. cbn [span_digits no_digit_ahead].
  destruct (is_digit c); [|reflexivity].
  destruct (span_digits r). discriminate.
Qed.

Lemma opt_suffix_none r : suffix_ahead r = false -> opt_suffix r = ("", r).
Proof.
  unfold suffix_ahead, opt_suffix.
  destruct (lit "." r) as [t|]; [|reflexivity].
  destruct t as [|c t]; [reflexivity|].
  intros H. now rewrite digits1_none.
Qed.

Lemma opt_suffix_some d4 r :
  digit_run d4 -> no_digit_ahead r ->
  opt_suffix (String "." (d4 ++ r)) = (String "." d4, r).
Proof.
  intros Hd Hr. unfold opt_suffix.
  now rewrite lit_head, (digits1_exact _ _ Hd Hr).
Qed.

Lemma opt_suffix_exact s sfx r :
  opt_suffix s = (sfx, r) -> no_digit_ahead s ->
  s = sfx ++ r /\ no_digit_ahead r
  /\ ((sfx = "" /\ suffix_ahead r = false)
      \/ exists d4, sfx = String "." d4 /\ digit_run d4).
Proof.
  intros H Hs.
  destruct (opt_suffix_spec _ _ _ H Hs) as (E & _ & Hr).
  split; [exact E|]. split; [exact Hr|].
  revert H. unfold opt_suffix, suffix_ahead.
  destruct (lit "." s) as [t|] eqn:El.
  - destruct (digits1 t) as [[d r']|] eqn:Ed.
    + intros H. injection H as <- <-. right.
      apply digits1_spec in Ed as (_ & Hd & _). eauto.
    + intros H. injection H as <- <-. left. split; [reflexivity|].
      rewrite El. destruct t as [|c t]; [reflexivity|].
      exact (digits1_none_inv _ Ed).
  - intros H. injection H as <- <-. left. split; [reflexivity|].
    now rewrite El.
Qed.

Lemma no_digit_ahead_dot s : no_digit_ahead (String "." s).
Proof. reflexivity. Qed.

Lemma section_match_group1 text id :
  section_match text = Some id <-> group1_of text id.
Proof.
  split.
  - unfold section_match, section_pattern_match.
    destruct (lstrip_split text) as (ws & Etext & Hws).
    destruct (digits1 (lstrip text)) as [[d1 s1]|] eqn:E1; [|discriminate].
    destruct (lit "-" s1) as [s2|] eqn:L1; [|discriminate].
    destruct (digits1 s2) as [[d2 s3]|] eqn:E2; [|discriminate].
    destruct (lit "-" s3) as [s4|] eqn:L2; [|discriminate].
    destruct (digits1 s4) as [[d3 s5]|] eqn:E3; [|discriminate].
    destruct (opt_suffix s5) as [sfx s6] eqn:E4.
    cbn [option_map fst]. intros H. injection H as <-.
    apply digits1_spec in E1 as (X1 & D1 & _), E2 as (X2 & D2 & _),
      E3 as (X3 & D3 & N3).
    apply lit_spec in L1, L2.
    apply opt_suffix_exact in E4 as (X4 & N4 & D4); [|exact N3].
    exists ws, d1, d2, d3, sfx, s6.
    split; [|auto 10].
    rewrite Etext at 1. f_equal.
    rewrite X1, L1, X2, L2, X3, X4.
    repeat (rewrite ?app_assoc; cbn [append]). reflexivity.
  - intros (ws & d1 & d2 & d3 & sfx & rest & -> & -> & Hws & H1 & H2 & H3
              & Hs & Hr).
    unfold section_match, section_pattern_match.
    rewrite lstrip_spaces by exact Hws.
    repeat (rewrite ?app_assoc; cbn [append]).
    rewrite lstrip_digit_run by exact H1.
    rewrite digits1_dash by exact H1. rewrite lit_head.
    rewrite digits1_dash by exact H2. rewrite lit_head.
    destruct Hs as [[-> Hs] | (d4 & -> & H4)].
    + cbn [append]. rewrite (digits1_exact _ _ H3 Hr).
      rewrite (opt_suffix_none _ Hs). cbn [option_map fst].
      now rewrite !app_empty_r.
    + cbn [append].
      rewrite (digits1_exact d3 _ H3 (no_digit_ahead_dot _)).
      rewrite (opt_suffix_some _ _ H4 Hr). reflexivity.
Qed.

End ExactFacts.
Import ExactFacts.

(** X2.  Group 1 of a match is the longest identifier the block starts
    with after its leading white space: [section_match] returns [id]
    exactly when the block is white space, then [id] of the form
    digits-digits-digits(.digits), then a rest that starts neither with a
    digit nor, when [id] has no decimal part, with a period and a digit. *)
Theorem X2_group1_is_longest text id :
  section_match text = Some id <-> group1_of text id.
Proof. apply section_match_group1. Qed.

Module ResegmentFacts.

Lemma prefix_rstrip s : String.prefix (rstrip s) s = true.
Proof.
  induction s as [|c s IH]; [reflexivity|].
  cbn [rstrip]. destruct (is_space c && is_empty (rstrip s));
    [apply prefix_nil | now rewrite prefix_cons].
Qed.

Lemma no_digit_ahead_prefix y z :
  String.prefix y z = true -> no_digit_ahead z -> no_digit_ahead y.
Proof.
  destruct y as [|c y]; [intros _ _; exact I|].
  intros H. apply prefix_head in H as [z' ->]. exact (fun H => H).
Qed.

Lemma suffix_ahead_prefix y z :
  String.prefix y z = true -> suffix_ahead z = false ->
  suffix_ahead y = false.
Proof.
  destruct y as [|c y]; [reflexivity|].
  intros H. destruct (prefix_head _ _ _ H) as [z' ->].
  rewrite prefix_cons in H. unfold suffix_ahead. cbn [lit].
  destruct (Ascii.eqb "." c); [|reflexivity].
  destruct y as [|c' y]; [reflexivity|].
  now apply prefix_head in H as [z'' ->].
Qed.

Lemma join_cons_nl h more :
  exists x, join nl (h :: more) = h ++ x
            /\ (x = "" \/ exists w, x = nl ++ w).
Proof.
  unfold join. destruct more as [|m more]; cbn [concat].
  - exists "". rewrite app_empty_r. auto.
  - eexists. split; [reflexivity|]. right. eauto.
Qed.

Lemma no_digit_ahead_app rest x :
  no_digit_ahead rest -> (x = "" \/ exists w, x = nl ++ w) ->
  no_digit_ahead (rest ++ x).
Proof.
  destruct rest as [|c rest]; [|exact (fun H _ => H)].
  intros _ [-> | [w ->]]; reflexivity.
Qed.

Lemma suffix_ahead_app rest x :
  suffix_ahead rest = false -> (x = "" \/ exists w, x = nl ++ w) ->
  suffix_ahead (rest ++ x) = false.
Proof.
  destruct rest as [|c rest].
  - intros _ [-> | [w ->]]; reflexivity.
  - unfold suffix_ahead. cbn [append lit].
    destruct (Ascii.eqb "." c); [|reflexivity].
    destruct rest as [|c' rest]; [|exact (fun H _ => H)].
    intros _ [-> | [w ->]]; reflexivity.
Qed.

(** The content closed from a buffer is itself a header block for the same
    identifier. *)
Lemma content_matches hdr id more :
  section_match hdr = Some id ->
  section_match (full_content (hdr :: more)) = Some id.
Proof.
  intros Hm. apply section_match_group1 in Hm.
  destruct Hm as (ws & d1 & d2 & d3 & sfx & rest & -> & Eid & Hws & H1 & H2
                    & H3 & Hs & Hr).
  assert (Hid : SectionId id).
  { exists d1, d2, d3, sfx.
    split; [exact Eid|]. split; [exact H1|]. split; [exact H2|].
    split; [exact H3|]. destruct Hs as [[-> _] | H]; auto. }
  destruct (join_cons_nl (ws ++ id ++ rest) more) as (x & Hx & Hxs).
  assert (Hc : full_content ((ws ++ id ++ rest) :: more)
               = id ++ rstrip (rest ++ x)).
  { unfold full_content, strip. rewrite Hx, !app_assoc.
    rewrite lstrip_spaces by exact Hws.
    rewrite section_id_lstrip by exact Hid.
    apply rstrip_solid. now apply section_id_solid. }
  rewrite Hc. apply section_match_group1.
  exists "", d1, d2, d3, sfx, (rstrip (rest ++ x)).
  split; [reflexivity|]. split; [exact Eid|]. split; [reflexivity|].
  split; [exact H1|]. split; [exact H2|]. split; [exact H3|].
  pose proof (prefix_rstrip (rest ++ x)) as Hp.
  split.
  - destruct Hs as [[-> Hs] | H]; [left | now right].
    split; [reflexivity|].
    apply (suffix_ahead_prefix _ _ Hp). now apply suffix_ahead_app.
  - apply (no_digit_ahead_prefix _ _ Hp). now apply no_digit_ahead_app.
Qed.

Lemma segment_single a title c id :
  section_match c = Some id ->
  segment_from a title [c] = [mkSection title a id (strip c)].
Proof.
  intros Hm. unfold segment_from. rewrite run_cons.
  rewrite (step_header _ _ _ _ Hm). cbn [run fold_left].
  rewrite (finish_open _ _ id); [reflexivity | | reflexivity].
  unfold open_ok. cbn. eauto.
Qed.

(** Segmenting a list of header blocks that are already trimmed gives one
    record per block, with the block as content. *)
Lemma segment_headers a title (l : list SectionRecord) :
  (forall r, In r l ->
     section_match (content r) = Some (section_id r)
     /\ strip (content r) = content r) ->
  segment_from a title (map content l)
  = map (fun r => mkSection title a (section_id r) (content r)) l.
Proof.
  induction l as [|r l IH]; intros H; [reflexivity|].
  destruct (H r (or_introl eq_refl)) as [Hm Hs].
  destruct l as [|r2 l].
  - cbn [map]. now rewrite (segment_single _ _ _ _ Hm), Hs.
  - destruct (H r2 (or_intror (or_introl eq_refl))) as [Hm2 _].
    change (map content (r :: r2 :: l))
      with ([content r] ++ content r2 :: map content l)%list.
    rewrite segment_cut
      by (unfold is_section_header; now rewrite Hm2).
    rewrite (segment_single _ _ _ _ Hm), Hs.
    cbn [article_after fold_left].
    rewrite (section_not_article _ _ Hm).
    change (content r2 :: map content l) with (map content (r2 :: l)).
    rewrite IH by (intros r' Hr'; apply H; now right).
    reflexivity.
Qed.

End ResegmentFacts.
Import ResegmentFacts.

(** X11.  Every content is itself a header block of its own section, so
    the segmenter can be run again on its output: segmenting the list of
    contents gives back the same identifiers and the same contents, one
    record per content. *)
Theorem X11_resegment_contents title title' blocks :
  map id_content
    (parse_crs_html title' (map content (parse_crs_html title blocks)))
  = map id_content (parse_crs_html title blocks).
Proof.
  change (parse_crs_html title') with (segment_from "General Provisions" title').
  rewrite segment_headers.
  - rewrite map_map. reflexivity.
  - intros r Hin. apply In_nth_error in Hin as [k Hk].
    destruct (record_inv _ _ _ _ Hk)
      as (pre & hdr & id & body & post & _ & _ & _ & Hm & _ & _ & ->).
    cbn [record_of content section_id].
    split; [now apply content_matches | apply strip_idem].
Qed.

(** * The loop of [run_indexing] and the title *)

Module IndexingFacts.

Section Loop.

Context {float : Type}.
Variable encode : string -> list float.
Variable new_rowid : list nat -> nat.
Hypothesis new_rowid_fresh : forall ids, ~ In (new_rowid ids) ids.

Lemma existsb_fresh id ids :
  ~ In id ids -> existsb (Nat.eqb id) ids = false.
Proof.
  intros H. destruct (existsb (Nat.eqb id) ids) eqn:E; [|reflexivity].
  apply existsb_exists in E as (x & Hx & Heq).
  apply Nat.eqb_eq in Heq. subst. contradiction.
Qed.

Lemma index_section_paired d r :
  paired d ->
  exists id,
    ~ In id (map fst (sections d))
    /\ index_section float encode new_rowid d r
       = Some (mkDb (sections d ++ [(id, r)])
                    (vec_sections d ++ [(id, embedding_of encode r)])).
Proof.
  intros [Hv _]. exists (new_rowid (map fst (sections d))).
  split; [apply new_rowid_fresh|].
  unfold index_section, insert_section, insert_vec.
  cbn [sections vec_sections].
  rewrite Hv, existsb_fresh by apply new_rowid_fresh. reflexivity.
Qed.

Lemma index_sections_paired rs : forall d,
  paired d ->
  exists d',
    index_sections float encode new_rowid d rs = Some d'
    /\ paired d'
    /\ map snd (sections d') = (map snd (sections d) ++ rs)%list
    /\ map snd (vec_sections d')
       = (map snd (vec_sections d) ++ map (embedding_of encode) rs)%list.
Proof.
  induction rs as [|r rs IH]; intros d Hd.
  - exists d. cbn. now rewrite !app_nil_r.
  - destruct (index_section_paired d r Hd) as (id & Hid & E).
    cbn [index_sections]. rewrite E.
    destruct Hd as [Hv Hn].
    destruct (IH (mkDb (sections d ++ [(id, r)])
                       (vec_sections d ++ [(id, embedding_of encode r)])))
      as (d' & E' & Hp & Hs & He).
    { split; cbn [sections vec_sections]; rewrite !map_app.
      - now rewrite Hv.
      - apply NoDup_app; [exact Hn | repeat constructor; intros [] |].
        intros a Ha [<- | []]. contradiction. }
    exists d'. split; [exact E'|]. split; [exact Hp|].
    cbn [sections vec_sections] in Hs, He.
    rewrite !map_app, <- !List.app_assoc in Hs, He. auto.
Qed.

Lemma find_by_rowid (v : list (nat * list float)) : forall k id e,
  NoDup (map fst v) -> nth_error v k = Some (id, e) ->
  find (fun p => Nat.eqb (fst p) id) v = Some (id, e).
Proof.
  induction v as [|[i x] v IH]; intros k id e Hn Hk.
  - destruct k; discriminate.
  - cbn [map fst] in Hn. inversion Hn as [|? ? Hi Hn']; subst.
    cbn [find fst]. destruct k as [|k].
    + injection Hk as -> ->. now rewrite Nat.eqb_refl.
    + cbn [nth_error] in Hk.
      destruct (Nat.eqb i id) eqn:E; [|eapply IH; eassumption].
      apply Nat.eqb_eq in E. subst. exfalso. apply Hi.
      apply nth_error_In in Hk.
      apply (in_map fst) in Hk. exact Hk.
Qed.

Lemma nth_error_pair {A B} (l : list (A * B)) k a b :
  nth_error (map fst l) k = Some a -> nth_error (map snd l) k = Some b ->
  nth_error l k = Some (a, b).
Proof.
  rewrite !nth_error_map.
  destruct (nth_error l k) as [[x y]|]; cbn; congruence.
Qed.

Lemma indexed_vector d rs k id r :
  paired d ->
  map snd (sections d) = rs ->
  map snd (vec_sections d) = map (embedding_of encode) rs ->
  nth_error (sections d) k = Some (id, r) ->
  stored_vector d id = Some (embedding_of encode r).
Proof.
  intros [Hv Hn] Hs He Hk. unfold stored_vector.
  rewrite (find_by_rowid _ k id (embedding_of encode r)); [reflexivity | |].
  - now rewrite Hv.
  - apply nth_error_pair.
    + rewrite Hv, nth_error_map, Hk. reflexivity.
    + rewrite He, <- Hs, map_map, nth_error_map, Hk. reflexivity.
Qed.

End Loop.

Lemma next_rowid_fresh ids : ~ In (next_rowid ids) ids.
Proof.
  unfold next_rowid. intros H.
  assert (Hle : forall x, In x ids -> x <= fold_right Nat.max 0 ids).
  { clear H. induction ids as [|y ids IH]; intros x [].
    - subst. cbn. lia.
    - cbn. specialize (IH x H). lia. }
  specialize (Hle _ H). lia.
Qed.

Lemma text_to_embed_nonempty a i c : is_empty (text_to_embed a i c) = false.
Proof. unfold text_to_embed. destruct a; reflexivity. Qed.

Lemma replace_newline_clean s :
  all_chars not_newline (replace_newline s) = true.
Proof.
  induction s as [|c s IH]; [reflexivity|].
  cbn [replace_newline all_chars]. rewrite IH, andb_true_r.
  unfold not_newline.
  destruct (Ascii.eqb c "010") eqn:E; [reflexivity|].
  now rewrite E.
Qed.

Lemma replace_newline_length s :
  String.length (replace_newline s) = String.length s.
Proof. induction s as [|c s IH]; cbn; [reflexivity | now rewrite IH]. Qed.

(** Character by character: a newline becomes a space, any other
    character stays. *)
Lemma replace_newline_get s : forall i,
  String.get i (replace_newline s)
  = option_map (fun c => if Ascii.eqb c "010" then " "%char else c)
      (String.get i s).
Proof.
  induction s as [|c s IH]; intros i; [reflexivity|].
  cbn [replace_newline String.get]. destruct i as [|i]; [reflexivity|].
  apply IH.
Qed.

End IndexingFacts.
Import IndexingFacts.

(** X12.  When every row inserted into [sections] gets a row id that is
    not yet in the table, the loop of [run_indexing] never fails on a
    duplicate row id.  Afterwards [sections] holds the records of the
    segmenter in output order, [vec_sections] holds, under the same row
    ids and in the same order, the vectors of the texts
    "article. identifier. content", and no row id occurs twice. *)
Theorem X12_indexing_pairs_rows {float : Type}
  (encode : string -> list float) (new_rowid : list nat -> nat)
  title blocks :
  (forall ids, ~ In (new_rowid ids) ids) ->
  exists d,
    run_indexing float encode new_rowid title blocks = Some d
    /\ map snd (sections d) = parse_crs_html title blocks
    /\ map fst (vec_sections d) = map fst (sections d)
    /\ NoDup (map fst (sections d))
    /\ map snd (vec_sections d)
       = map (embedding_of encode) (parse_crs_html title blocks).
Proof.
  intros Hfresh.
  destruct (index_sections_paired encode new_rowid Hfresh
              (parse_crs_html title blocks) (mkDb [] []))
    as (d & E & [Hv Hn] & Hs & He).
  - split; [reflexivity | constructor].
  - exists d. auto.
Qed.

Lemma X12_indexing_pairs_rows_witness :
  exists d,
    run_indexing nat (fun s => [String.length s]) next_rowid "T"
      ["ARTICLE 1"; "18-1-101. Foo."; "More."; "18-1-102. Bar."] = Some d
    /\ map fst (sections d) = [1; 2]
    /\ map snd (vec_sections d) = [[41]; [35]].
Proof.
  destruct (X12_indexing_pairs_rows (fun s => [String.length s]) next_rowid
              "T" ["ARTICLE 1"; "18-1-101. Foo."; "More."; "18-1-102. Bar."]
              next_rowid_fresh)
    as (d & E & _).
  exists d. split; [exact E|].
  vm_compute in E. injection E as <-. split; reflexivity.
Defined.

(** X13.  The query function and the indexer agree: for every row of
    [sections] left by [run_indexing], [embed_text] applied to the text
    "article. identifier. content" of that row is not NULL and is the JSON
    text of the vector stored in [vec_sections] under the row's id. *)
Theorem X13_query_matches_index {float : Type}
  (encode : string -> list float) (float_repr : float -> string)
  (new_rowid : list nat -> nat) title blocks d id r :
  (forall ids, ~ In (new_rowid ids) ids) ->
  run_indexing float encode new_rowid title blocks = Some d ->
  In (id, r) (sections d) ->
  exists v,
    stored_vector d id = Some v
    /\ embed_text float encode float_repr
         (Some (text_to_embed (article r) (section_id r) (content r)))
       = Some (json_dumps float float_repr v).
Proof.
  intros Hfresh Hrun Hin.
  destruct (index_sections_paired encode new_rowid Hfresh
              (parse_crs_html title blocks) (mkDb [] []))
    as (d' & E & Hp & Hs & He).
  { split; [reflexivity | constructor]. }
  unfold run_indexing in Hrun. rewrite Hrun in E. injection E as <-.
  apply In_nth_error in Hin as [k Hk].
  exists (embedding_of encode r). split.
  - eapply indexed_vector; eauto.
  - unfold embed_text. now rewrite text_to_embed_nonempty.
Qed.

Lemma X13_query_matches_index_witness :
  exists v,
    stored_vector
      (mkDb [(1, mkSection "T" "ARTICLE 1" "18-1-101" "18-1-101. Foo.")]
            [(1, [35])]) 1 = Some v
    /\ embed_text nat (fun s => [String.length s]) (fun _ => "0.5")
         (Some (text_to_embed "ARTICLE 1" "18-1-101" "18-1-101. Foo."))
       = Some (json_dumps nat (fun _ => "0.5") v).
Proof.
  apply (X13_query_matches_index (fun s => [String.length s])
           (fun _ => "0.5") next_rowid "T" ["ARTICLE 1"; "18-1-101. Foo."]
           (mkDb [(1, mkSection "T" "ARTICLE 1" "18-1-101" "18-1-101. Foo.")]
                 [(1, [35])])
           1 (mkSection "T" "ARTICLE 1" "18-1-101" "18-1-101. Foo.")).
  - apply next_rowid_fresh.
  - reflexivity.
  - left. reflexivity.
Defined.

(** X14.  The title carried by the records never holds a newline: it is
    "Unknown Title" when the document has no h1 element, and otherwise the
    h1 text with each newline replaced by one space: the same length, a
    space wherever the h1 text has a newline, and every other character
    unchanged. *)
Theorem X14_title_has_no_newline h1 blocks r :
  In r (parse_crs_html (main_title_of h1) blocks) ->
  all_chars not_newline (main_title r) = true
  /\ (h1 = None -> main_title r = "Unknown Title")
  /\ (forall t, h1 = Some t ->
        main_title r = replace_newline t
        /\ String.length (main_title r) = String.length t
        /\ forall i,
             String.get i (main_title r)
             = option_map
                 (fun c => if Ascii.eqb c "010" then " "%char else c)
                 (String.get i t)).
Proof.
  intros Hin. apply In_nth_error in Hin as [k Hk].
  destruct (record_inv _ _ _ _ Hk)
    as (pre & hdr & id & body & post & _ & _ & _ & _ & _ & _ & ->).
  cbn [record_of main_title]. split; [|split].
  - destruct h1 as [t|]; [apply replace_newline_clean | reflexivity].
  - now intros ->.
  - intros t ->. cbn [main_title_of].
    split; [reflexivity|].
    split; [apply replace_newline_length | apply replace_newline_get].
Qed.

Lemma X14_title_has_no_newline_witness :
  all_chars not_newline "Title 18 Criminal Code" = true
  /\ "Title 18 Criminal Code"
     = replace_newline ("Title 18" ++ nl ++ "Criminal Code").
Proof.
  destruct (X14_title_has_no_newline
              (Some ("Title 18" ++ nl ++ "Criminal Code")) ["1-2-3. Foo."]
              (mkSection "Title 18 Criminal Code" "General Provisions"
                 "1-2-3" "1-2-3. Foo."))
    as (Hc & _ & Ht).
  - left. reflexivity.
  - split; [exact Hc|].
    exact (proj1 (Ht _ eq_refl)).
Defined.
